(** * A shallow embedding of [app.py] and of its test suite

    The repository is a scaffold: [app.py] loads the environment, evaluates
    two string literals that spell a Flask and a FastAPI application, and
    defines a placeholder [main] that prints four diagnostic lines.  The
    tests check a fixture dictionary.

    The development follows the file top to bottom:
    - Python values, exceptions and the state a process can touch;
    - the builtins the code calls ([print], [os.getenv], [int], [str.lower]);
    - [main] and the module body of [app.py];
    - the two framework blocks, read as the code their literals spell;
    - the fixture and the tests;
    - the properties. *)

From Stdlib Require Import ZArith String Ascii List Bool Lia.
From stdpp Require Import base gmap strings list pretty.

Open Scope Z_scope.
#[local] Set Warnings "-register-all".

(** ** Python values *)

(** The scalar values the code handles. *)
Inductive pyval : Type :=
| PNone
| PBool (b : bool)
| PInt (n : Z)
| PStr (s : string).

(** Dictionaries of strings, as the handlers and the fixture build them:
    an association list in insertion order. *)
Inductive json : Type :=
| JStr (s : string)
| JObj (items : list (string * json)).

(** The exceptions that can reach the top level of a script. *)
Inductive exn : Type :=
| ValueError
| TypeError
| AttributeError
| KeyError (key : string)
| AssertionError
| BindError
| UnicodeEncodeError
| LookupError.

Inductive result (A : Type) : Type :=
| Ok (a : A)
| Raise (e : exn).
Arguments Ok {A} a.
Arguments Raise {A} e.

(** ** Requests and responses *)

(** A GET request.  GET is the only method the routes below are declared
    for; what the framework does with other methods is not the code's.
    [path] is the path the framework's router matches, after the server
    has decoded and normalised the target of the request. *)
Record request : Type := Request {
  path : string;
  query : list (string * string);
  headers : list (string * string)
}.

Record response : Type := Response {
  status : Z;
  body : json
}.

(** What became of one request that reached a listening server. *)
Inductive answer : Type :=
| Answered (r : response)      (* a view function ran and returned *)
| ViewFailed (e : exn)         (* a view function raised *)
| NoRoute.                     (* no rule has this path: the framework answers *)

(** ** The state of a process *)

Record world : Type := World {
  environ : gmap string string;           (* os.environ *)
  stdout : list string;                   (* text written to sys.stdout, one chunk a call, oldest first *)
  routes : list (string * string);        (* (rule, endpoint) registered with an application *)
  bind_log : list (string * Z);           (* (host, port) of every bind attempted *)
  listening : option (string * Z * bool); (* (host, port, debug) of the bound listener *)
  served : list (request * answer);       (* requests answered, oldest first *)
  can_bind : string -> Z -> bool;         (* the system lets this process bind host:port *)
  incoming : list request;                (* what clients send until the server is stopped *)
  stdout_encode : string -> result string; (* the codec of sys.stdout: the bytes of a text, or its exception *)
  stdout_bytes : list string              (* the bytes sys.stdout made of the chunks *)
}.

Definition set_environ (f : gmap string string -> gmap string string) (w : world) : world :=
  World (f (environ w)) (stdout w) (routes w) (bind_log w) (listening w)
        (served w) (can_bind w) (incoming w) (stdout_encode w) (stdout_bytes w).

Definition set_stdout (f : list string -> list string) (w : world) : world :=
  World (environ w) (f (stdout w)) (routes w) (bind_log w) (listening w)
        (served w) (can_bind w) (incoming w) (stdout_encode w) (stdout_bytes w).

Definition set_routes (f : list (string * string) -> list (string * string)) (w : world) : world :=
  World (environ w) (stdout w) (f (routes w)) (bind_log w) (listening w)
        (served w) (can_bind w) (incoming w) (stdout_encode w) (stdout_bytes w).

Definition set_bind_log (f : list (string * Z) -> list (string * Z)) (w : world) : world :=
  World (environ w) (stdout w) (routes w) (f (bind_log w)) (listening w)
        (served w) (can_bind w) (incoming w) (stdout_encode w) (stdout_bytes w).

Definition set_listening (l : option (string * Z * bool)) (w : world) : world :=
  World (environ w) (stdout w) (routes w) (bind_log w) l
        (served w) (can_bind w) (incoming w) (stdout_encode w) (stdout_bytes w).

Definition set_served (f : list (request * answer) -> list (request * answer)) (w : world) : world :=
  World (environ w) (stdout w) (routes w) (bind_log w) (listening w)
        (f (served w)) (can_bind w) (incoming w) (stdout_encode w) (stdout_bytes w).

Definition set_stdout_bytes (f : list string -> list string) (w : world) : world :=
  World (environ w) (stdout w) (routes w) (bind_log w) (listening w)
        (served w) (can_bind w) (incoming w) (stdout_encode w) (f (stdout_bytes w)).

(** ** Computations: state passing with exceptions

    A Python statement is run in a world and either returns or raises;
    what it did to the world before raising stays done. *)

Definition M (A : Type) : Type := world -> result A * world.

Definition ret {A : Type} (a : A) : M A := fun w => (Ok a, w).

Definition bind {A B : Type} (m : M A) (k : A -> M B) : M B :=
  fun w => match m w with
           | (Ok a, w') => k a w'
           | (Raise e, w') => (Raise e, w')
           end.

Definition raise {A : Type} (e : exn) : M A := fun w => (Raise e, w).

Definition gets {A : Type} (f : world -> A) : M A := fun w => (Ok (f w), w).

Definition modify (f : world -> world) : M unit := fun w => (Ok tt, f w).

Declare Scope py_scope.
Delimit Scope py_scope with py.
Notation "x <- m ;; k" := (bind m (fun x => k))
  (at level 20, m at level 99, k at level 200, only parsing) : py_scope.
Notation "m ;; k" := (bind m (fun _ => k))
  (at level 100, k at level 200, only parsing, right associativity) : py_scope.
Open Scope py_scope.

(** ** Builtins *)

Definition newline : string := String "010" "".

(** [print(s)]: the text and a line terminator are handed to
    [sys.stdout], which encodes them for the device.  When the codec of
    the stream refuses the text, nothing of it is written and its
    exception is raised.  (The codec is applied to the line as a whole;
    the codecs of the standard library work character by character, so
    that is the same as the text and the terminator in turn.) *)
Definition print (s : string) : M unit :=
  fun w =>
    match stdout_encode w (s +:+ newline) with
    | Ok bytes =>
        (Ok tt,
         set_stdout_bytes (fun out => out ++ [bytes])
           (set_stdout (fun out => out ++ [s +:+ newline]) w))
    | Raise e => (Raise e, w)
    end.

(** [os.getenv(key, default)]: the variable's value, a string, when it is
    set, and the default as given otherwise. *)
Definition os_getenv (key : string) (default : pyval) : M pyval :=
  gets (fun w => match environ w !! key with
                 | Some v => PStr v
                 | None => default
                 end).

(** [str(v)], as an f-string field formats a value. *)
Definition py_str (v : pyval) : string :=
  match v with
  | PNone => "None"
  | PBool true => "True"
  | PBool false => "False"
  | PInt n => pretty n
  | PStr s => s
  end.

(** [assert b]. *)
Definition py_assert (b : bool) : M unit :=
  if b then ret tt else raise AssertionError.

(** *** Strings

    A character is a code point below 256; on these the functions below
    are what Python computes.  (Above 255 no code point lower-cases to a
    letter of [true]; [int] also reads the decimal digits and skips the
    white space of other scripts.) *)

(** The code points [str.lower] moves: A-Z and the capital letters of the
    Latin-1 supplement (all of 192..222 but the multiplication sign). *)
Definition is_upper (n : N) : bool :=
  ((65 <=? n) && (n <=? 90) || (192 <=? n) && (n <=? 214) || (216 <=? n) && (n <=? 222))%N.

Definition lower_char (c : ascii) : ascii :=
  let n := N_of_ascii c in
  if is_upper n then ascii_of_N (n + 32) else c.

(** [s.lower()]. *)
Fixpoint lower (s : string) : string :=
  match s with
  | EmptyString => EmptyString
  | String c s' => String (lower_char c) (lower s')
  end.

(** [v.lower()] on a value: only strings have the method. *)
Definition str_lower (v : pyval) : M string :=
  match v with
  | PStr s => ret (lower s)
  | _ => raise AttributeError
  end.

(** White space as [int] skips it at both ends of its argument. *)
Definition is_space (c : ascii) : bool :=
  let n := N_of_ascii c in
  ((9 <=? n) && (n <=? 13) || (n =? 32) || (n =? 133) || (n =? 160))%N.

Definition is_digit (c : ascii) : bool :=
  let n := N_of_ascii c in ((48 <=? n) && (n <=? 57))%N.

Definition digit_value (c : ascii) : Z := Z.of_N (N_of_ascii c) - 48.

Fixpoint lstrip (s : string) : string :=
  match s with
  | EmptyString => EmptyString
  | String c s' => if is_space c then lstrip s' else s
  end.

Definition rstrip (s : string) : string :=
  String.rev (lstrip (String.rev s)).

(** Decimal digits, single underscores allowed between two digits.
    [after_digit] tells whether the character before was a digit. *)
Fixpoint digits (s : string) (after_digit : bool) (acc : Z) : option Z :=
  match s with
  | EmptyString => if after_digit then Some acc else None
  | String c s' =>
      if is_digit c then digits s' true (10 * acc + digit_value c)
      else if Ascii.eqb c "_" && after_digit then digits s' false acc
      else None
  end.

Fixpoint digit_count (s : string) : nat :=
  match s with
  | EmptyString => 0%nat
  | String c s' => ((if is_digit c then 1 else 0) + digit_count s')%nat
  end.

(** The interpreter's bound on the digits of a decimal literal it converts
    ([sys.int_max_str_digits], since CPython 3.11), at its default.
    [PYTHONINTMAXSTRDIGITS] can lift it or lower it, to no less than 640:
    literals of up to 640 digits are read alike under every setting. *)
Definition max_str_digits : nat := 4300.

Definition unsigned_int (t : string) : option Z :=
  if (max_str_digits <? digit_count t)%nat then None else digits t false 0.

(** [int(s)] for a string: white space, an optional sign, digits. *)
Definition int_of_str (s : string) : option Z :=
  match rstrip (lstrip s) with
  | String "+" t => unsigned_int t
  | String "-" t => Z.opp <$> unsigned_int t
  | t => unsigned_int t
  end.

(** [int(v)]. *)
Definition py_int (v : pyval) : M Z :=
  match v with
  | PInt n => ret n
  | PBool b => ret (if b then 1 else 0)
  | PStr s => match int_of_str s with
              | Some n => ret n
              | None => raise ValueError
              end
  | PNone => raise TypeError
  end.

(** *** Dictionaries *)

Fixpoint dict_get (items : list (string * json)) (k : string) : option json :=
  match items with
  | [] => None
  | (k', v) :: rest => if String.eqb k' k then Some v else dict_get rest k
  end.

(** [k in d]. *)
Definition py_in (k : string) (d : json) : M bool :=
  match d with
  | JObj items => ret (bool_decide (is_Some (dict_get items k)))
  | JStr s => ret (bool_decide (is_Some (String.index 0 k s)))
  end.

(** [d[k]]. *)
Definition subscript (d : json) (k : string) : M json :=
  match d with
  | JObj items => match dict_get items k with
                  | Some v => ret v
                  | None => raise (KeyError k)
                  end
  | JStr _ => raise TypeError
  end.

(** ** [app.py] *)

(** *** The two string literals (lines 13-30 and 34-51)

    Each is an expression statement: the string is built and dropped. *)

Definition lines_text (ls : list string) : string :=
  foldr (fun l acc => l +:+ newline +:+ acc) "" ls.

Definition dquote : string := String "034" "".

Definition flask_text : string :=
  newline +:+ lines_text [
    "from flask import Flask, jsonify";
    "";
    "app = Flask(__name__)";
    "";
    "@app.route('/health')";
    "def health():";
    "    return jsonify({'status': 'healthy', 'version': '1.0.0'}), 200";
    "";
    "@app.route('/')";
    "def index():";
    "    return jsonify({'message': 'Welcome to the API'}), 200";
    "";
    "if __name__ == '__main__':";
    "    port = int(os.getenv('PORT', 8000))";
    "    debug = os.getenv('DEBUG', 'False').lower() == 'true'";
    "    app.run(host='0.0.0.0', port=port, debug=debug)"
  ].

Definition fastapi_text : string :=
  newline +:+ lines_text [
    "from fastapi import FastAPI";
    "import uvicorn";
    "";
    "app = FastAPI(title=" +:+ dquote +:+ "Python Web App" +:+ dquote
      +:+ ", version=" +:+ dquote +:+ "1.0.0" +:+ dquote +:+ ")";
    "";
    "@app.get('/health')";
    "async def health():";
    "    return {'status': 'healthy', 'version': '1.0.0'}";
    "";
    "@app.get('/')";
    "async def root():";
    "    return {'message': 'Welcome to the API'}";
    "";
    "if __name__ == '__main__':";
    "    port = int(os.getenv('PORT', 8000))";
    "    uvicorn.run(app, host='0.0.0.0', port=port)"
  ].

(** An expression statement whose expression is a string literal. *)
Definition string_statement (text : string) : M unit :=
  ret (PStr text) ;; ret tt.

(** *** [main] (lines 55-60) *)

Definition main : M pyval :=
  print "Python Web Application" ;;
  print "Please uncomment and configure your chosen framework above." ;;
  environment <- os_getenv "ENVIRONMENT" (PStr "development") ;;
  print ("Environment: " +:+ py_str environment) ;;
  port <- os_getenv "PORT" (PStr "8000") ;;
  print ("Port: " +:+ py_str port) ;;
  ret PNone.

(** *** The module body

    [load_dotenv] is python-dotenv's: all that is taken of it is that it
    rewrites [os.environ].  [name] is the module's [__name__]. *)

Section AppPy.
Variable load_dotenv : gmap string string -> gmap string string.

Definition app_py (name : string) : M unit :=
  modify (set_environ load_dotenv) ;;
  string_statement flask_text ;;
  string_statement fastapi_text ;;
  if String.eqb name "__main__" then (main ;; ret tt) else ret tt.
End AppPy.

(** ** Running a script as a process

    The interpreter exits with status 0 when the script runs to its end
    and with status 1 when an exception reaches the top level. *)

Definition exit_code {A : Type} (r : result A) : Z :=
  match r with
  | Ok _ => 0
  | Raise _ => 1
  end.

Definition python {A : Type} (script : M A) (w : world) : Z * world :=
  let (r, w') := script w in (exit_code r, w').

(** *** The codec of standard output

    The interpreter fixes the encoding and the error handler of
    [sys.stdout] when it starts, from [PYTHONIOENCODING] and the locale.
    The table below holds three encodings and the handlers that need no
    table of their own, on code points below 256. *)

Inductive encoding : Type := UTF8 | ASCII | Latin1.

Inductive error_handler : Type :=
| Strict | Replace | Ignore | BackslashReplace | XmlCharRefReplace
| NoSuchHandler.   (* a name that is no handler's: looking it up fails *)

Definition is_ascii (c : ascii) : bool := (N_of_ascii c <? 128)%N.

Definition hex_digit (n : N) : ascii :=
  if (n <? 10)%N then ascii_of_N (48 + n) else ascii_of_N (87 + n).

(** What a handler puts for a character the ASCII codec cannot encode. *)
Definition handle (h : error_handler) (c : ascii) : result string :=
  let n := N_of_ascii c in
  match h with
  | Strict => Raise UnicodeEncodeError
  | Replace => Ok "?"
  | Ignore => Ok ""
  | BackslashReplace =>
      Ok ("\x" +:+ String (hex_digit (n / 16)) (String (hex_digit (n mod 16)) ""))
  | XmlCharRefReplace => Ok ("&#" +:+ pretty n +:+ ";")
  | NoSuchHandler => Raise LookupError
  end.

Definition encode_char (e : encoding) (h : error_handler) (c : ascii) : result string :=
  let n := N_of_ascii c in
  if is_ascii c then Ok (String c "")
  else match e with
       | UTF8 => Ok (String (ascii_of_N (192 + n / 64))
                       (String (ascii_of_N (128 + n mod 64)) ""))
       | Latin1 => Ok (String c "")
       | ASCII => handle h c
       end.

(** [text.encode(e, h)]. *)
Fixpoint encode (e : encoding) (h : error_handler) (text : string) : result string :=
  match text with
  | EmptyString => Ok EmptyString
  | String c rest =>
      match encode_char e h c, encode e h rest with
      | Ok b, Ok bs => Ok (b +:+ bs)
      | Raise x, _ => Raise x
      | Ok _, Raise x => Raise x
      end
  end.

(** The part of [s] before the first [c], and the part after it when
    there is one. *)
Fixpoint split_at (c : ascii) (s : string) : string * option string :=
  match s with
  | EmptyString => (EmptyString, None)
  | String c' s' =>
      if Ascii.eqb c' c then (EmptyString, Some s')
      else let (before, after) := split_at c s' in (String c' before, after)
  end.

(** Encoding names are looked up without regard to case. *)
Definition encoding_named (name : string) : option encoding :=
  let n := lower name in
  if String.eqb n "" then Some UTF8
  else if String.eqb n "utf-8" || String.eqb n "utf8" || String.eqb n "utf_8" then Some UTF8
  else if String.eqb n "ascii" || String.eqb n "us-ascii" then Some ASCII
  else if String.eqb n "latin-1" || String.eqb n "latin1" || String.eqb n "latin_1"
          || String.eqb n "iso-8859-1"
  then Some Latin1
  else None.

(** Handler names are looked up as they are, and only when a character
    cannot be encoded.  [surrogateescape] differs from [strict] on
    surrogates only, of which there are none below 256; [namereplace] and
    [surrogatepass] are handlers outside the table. *)
Definition handler_named (name : string) : option error_handler :=
  if String.eqb name "" || String.eqb name "strict" then Some Strict
  else if String.eqb name "surrogateescape" then Some Strict
  else if String.eqb name "replace" then Some Replace
  else if String.eqb name "ignore" then Some Ignore
  else if String.eqb name "backslashreplace" then Some BackslashReplace
  else if String.eqb name "xmlcharrefreplace" then Some XmlCharRefReplace
  else if String.eqb name "namereplace" || String.eqb name "surrogatepass" then None
  else Some NoSuchHandler.

(** [PYTHONIOENCODING=encoding:handler], either part optional. *)
Definition codec_named (value : string) : option (encoding * error_handler) :=
  let (name, handler) := split_at ":" value in
  match encoding_named name, handler_named (default "" handler) with
  | Some e, Some h => Some (e, h)
  | _, _ => None
  end.

(** The codec the interpreter gives [sys.stdout] in a UTF-8 locale.
    A value of [PYTHONIOENCODING] outside the table is read as if the
    variable were unset. *)
Definition stdout_codec (env : gmap string string) : encoding * error_handler :=
  match env !! "PYTHONIOENCODING" with
  | Some value => default (UTF8, Strict) (codec_named value)
  | None => (UTF8, Strict)
  end.

(** The world a process starts in: nothing written, registered, bound or
    served yet. *)
Definition fresh (env : gmap string string) (bindable : string -> Z -> bool)
    (clients : list request) : world :=
  World env [] [] [] None [] bindable clients
        (encode (fst (stdout_codec env)) (snd (stdout_codec env))) [].

(** What a computation wrote to standard output: the text, chunk by
    chunk. *)
Definition printed {A : Type} (m : M A) (w : world) : list string :=
  drop (length (stdout w)) (stdout (snd (m w))).

(** The bytes the stream made of it. *)
Definition written {A : Type} (m : M A) (w : world) : list string :=
  drop (length (stdout_bytes w)) (stdout_bytes (snd (m w))).

(** Lines of a text: its line terminators. *)
Fixpoint count_newlines (s : string) : nat :=
  match s with
  | EmptyString => 0%nat
  | String c s' => ((if Ascii.eqb c "010" then 1 else 0) + count_newlines s')%nat
  end.

Definition lines_printed (chunks : list string) : nat :=
  count_newlines (String.concat "" chunks).

(** ** The frameworks

    Flask, FastAPI and uvicorn are not code of this repository.  What the
    blocks below need of them is kept to what the route declarations and
    the call of [run] decide. *)

(** An application object: its rules in registration order, as (path,
    endpoint), and the view function of every endpoint. *)
Record application : Type := Application {
  rules : list (string * string);
  view_functions : list (string * M response)
}.

(** A new application, without rules of the code's.  (The rule Flask adds
    for static files is under [/static/] and is left out.) *)
Definition new_application : application := Application [] [].

(** What [@app.route(rule)] and [@app.get(rule)] do with the function
    below them: the rule and the function are added to the application,
    under the function's name. *)
Definition add_route (rule endpoint : string) (view : M response)
    (app : application) : M application :=
  modify (set_routes (fun rs => rs ++ [(rule, endpoint)])) ;;
  ret (Application (rules app ++ [(rule, endpoint)])
                   (view_functions app ++ [(endpoint, view)])).

Fixpoint lookup_first {A : Type} (l : list (string * A)) (k : string) : option A :=
  match l with
  | [] => None
  | (k', v) :: rest => if String.eqb k' k then Some v else lookup_first rest k
  end.

(** One request: the first rule with the request's path names the view
    function to call; what it returns or raises is the answer. *)
Definition dispatch (app : application) (r : request) : M answer :=
  match lookup_first (rules app) (path r) with
  | None => ret NoRoute
  | Some endpoint =>
      match lookup_first (view_functions app) endpoint with
      | None => ret NoRoute
      | Some view =>
          fun w => match view w with
                   | (Ok resp, w') => (Ok (Answered resp), w')
                   | (Raise e, w') => (Ok (ViewFailed e), w')
                   end
      end
  end.

(** The requests are answered one after the other, each answer logged. *)
Fixpoint serve (app : application) (rs : list request) : M unit :=
  match rs with
  | [] => ret tt
  | r :: rest =>
      a <- dispatch app r ;;
      modify (set_served (fun log => log ++ [(r, a)])) ;;
      serve app rest
  end.

(** Modelled from the spec: the frameworks' [run] ([app.run] of Flask,
    [uvicorn.run]) is missing from the sources.  Section 4.1:
    [start(port, debugFlag)] binds a listener on the given port and serves
    requests until it is stopped from outside; it fails with a
    [BindError] if the port is in use or the process may not bind it, and
    a bind failure is fatal, with no retry. *)
Definition run (app : application) (host : string) (port : Z) (debug : bool) : M unit :=
  modify (set_bind_log (fun log => log ++ [(host, port)])) ;;
  bound <- gets (fun w => can_bind w host port) ;;
  if (bound : bool) then
    modify (set_listening (Some (host, port, debug))) ;;
    clients <- gets incoming ;;
    serve app clients
  else raise BindError.

(** ** The Flask block (the literal of lines 13-30, read as code) *)

Module FlaskBlock.

(** [jsonify(d)]: the response body that encodes [d], kept as [d]. *)
Definition jsonify (d : json) : json := d.

(** A view's [body, status] pair as a response. *)
Definition make_response (b : json) (s : Z) : response := Response s b.

Definition health : M response :=
  ret (make_response
         (jsonify (JObj [("status", JStr "healthy"); ("version", JStr "1.0.0")])) 200).

Definition index : M response :=
  ret (make_response (jsonify (JObj [("message", JStr "Welcome to the API")])) 200).

(** [app = Flask(__name__)] and the two decorated functions. *)
Definition app : M application :=
  a <- add_route "/health" "health" health new_application ;;
  add_route "/" "index" index a.

(** [port = int(os.getenv('PORT', 8000))] *)
Definition port : M Z :=
  p <- os_getenv "PORT" (PInt 8000) ;;
  py_int p.

(** [debug = os.getenv('DEBUG', 'False').lower() == 'true'] *)
Definition debug : M bool :=
  d <- os_getenv "DEBUG" (PStr "False") ;;
  l <- str_lower d ;;
  ret (String.eqb l "true").

(** The body of [if __name__ == '__main__':]. *)
Definition startup (a : application) : M unit :=
  p <- port ;;
  d <- debug ;;
  run a "0.0.0.0" p d.

Definition script (name : string) : M unit :=
  a <- app ;;
  if String.eqb name "__main__" then startup a else ret tt.

End FlaskBlock.

(** ** The FastAPI block (the literal of lines 34-51, read as code) *)

Module FastAPIBlock.

(** A dictionary returned by a path operation is sent as a JSON body
    with the framework's default status, 200. *)
Definition json_response (d : json) : response := Response 200 d.

Definition health : M response :=
  ret (json_response (JObj [("status", JStr "healthy"); ("version", JStr "1.0.0")])).

Definition root : M response :=
  ret (json_response (JObj [("message", JStr "Welcome to the API")])).

(** [app = FastAPI(...)] and the two decorated functions. *)
Definition app : M application :=
  a <- add_route "/health" "health" health new_application ;;
  add_route "/" "root" root a.

(** [port = int(os.getenv('PORT', 8000))] *)
Definition port : M Z :=
  p <- os_getenv "PORT" (PInt 8000) ;;
  py_int p.

(** The body of [if __name__ == '__main__':]; uvicorn is given no
    debug flag. *)
Definition startup (a : application) : M unit :=
  p <- port ;;
  run a "0.0.0.0" p false.

Definition script (name : string) : M unit :=
  a <- app ;;
  if String.eqb name "__main__" then startup a else ret tt.

End FastAPIBlock.

(** ** The tests *)

(** [tests/conftest.py] *)
Module Conftest.

(** The fixture. *)
Definition sample_data : M json :=
  ret (JObj [("user", JObj [("username", JStr "testuser");
                            ("email", JStr "test@example.com")])]).

End Conftest.

(** [tests/test_example.py], class [TestExample] *)
Module TestExample.

(** [v == s] for a string literal [s]. *)
Definition eq_str (v : json) (s : string) : bool :=
  match v with
  | JStr t => String.eqb t s
  | JObj _ => false
  end.

Definition test_example_pass : M unit :=
  py_assert true.

Definition test_addition : M unit :=
  let result := 2 + 2 in
  py_assert (result =? 4).

Definition test_with_fixture (sample_data : json) : M unit :=
  found <- py_in "user" sample_data ;;
  py_assert found ;;
  user <- subscript sample_data "user" ;;
  username <- subscript user "username" ;;
  py_assert (eq_str username "testuser").

End TestExample.

(** pytest evaluates the fixture a test names as its parameter, then
    calls the test with the value. *)
Definition with_fixture {A : Type} (fixture : M A) (test : A -> M unit) : M unit :=
  x <- fixture ;; test x.

(** The tests pytest collects. *)
Definition suite : list (string * M unit) :=
  [ ("test_example_pass", TestExample.test_example_pass);
    ("test_addition", TestExample.test_addition);
    ("test_with_fixture",
     with_fixture Conftest.sample_data TestExample.test_with_fixture) ].

(** A test passes when it returns without raising. *)
Definition passes (test : M unit) (w : world) : bool :=
  match fst (test w) with
  | Ok _ => true
  | Raise _ => false
  end.

(** ** Words used in the statements *)

(** The string [os.getenv(key, default)] gives for a string default. *)
Definition env_or (w : world) (key default : string) : string :=
  match environ w !! key with
  | Some v => v
  | None => default
  end.

(** The port the blocks read, when [int] accepts the variable's value. *)
Definition configured_port (w : world) : option Z :=
  match environ w !! "PORT" with
  | Some v => int_of_str v
  | None => Some 8000
  end.

(** The table of section 6 (HTTP surface), by path. *)
Definition http_surface (p : string) : answer :=
  if String.eqb p "/health" then
    Answered (Response 200 (JObj [("status", JStr "healthy"); ("version", JStr "1.0.0")]))
  else if String.eqb p "/" then
    Answered (Response 200 (JObj [("message", JStr "Welcome to the API")]))
  else NoRoute.

(** [c] is the lower-case letter [l] or its capital. *)
Definition either_case (l c : ascii) : Prop :=
  c = l \/ (N_of_ascii c + 32 = N_of_ascii l)%N.

(** [P] holds of the application a block builds, in whatever world it is
    built. *)
Definition built_by (block : M application) (P : application -> Prop) : Prop :=
  forall w0 : world, exists (a : application) (w1 : world),
    block w0 = (Ok a, w1) /\ P a.

(** The script fails in [w] with [e]: the exception reaches the top level,
    the process exits with a status other than 0, [binds] are the bind
    attempts it made, and it never listened or answered a request. *)
Definition fails_with (script : M unit) (w : world) (e : exn)
    (binds : list (string * Z)) : Prop :=
  fst (script w) = Raise e
  /\ fst (python script w) <> 0
  /\ bind_log (snd (script w)) = bind_log w ++ binds
  /\ listening (snd (script w)) = listening w
  /\ served (snd (script w)) = served w.

(** What starting a block's script comes to, by the port read and by
    whether the system lets the process bind it. *)
Definition startup_outcome (script : M unit) (w : world) : Prop :=
  match configured_port w with
  | Some p =>
      if can_bind w "0.0.0.0" p
      then fst (script w) = Ok tt /\ fst (python script w) = 0
      else fails_with script w BindError [("0.0.0.0", p)]
  | None => fails_with script w ValueError []
  end.

(** Answers do not drift: a request gets the same answer however often
    and after whatever it is sent, and the answer is a function of the
    path alone; serving changes nothing but the log of answers. *)
Definition drift_free (a : application) : Prop :=
  (forall r : request, exists ans : answer, forall (n : nat) (w : world),
      serve a (repeat r n) w =
        (Ok tt, set_served (fun log => log ++ repeat (r, ans) n) w))
  /\ (exists f : string -> answer, forall (rs : list request) (w : world),
        serve a rs w =
          (Ok tt, set_served (fun log => log ++ map (fun r => (r, f (path r))) rs) w)).

(** Every character of [s] satisfies [p]. *)
Fixpoint all_chars (p : ascii -> bool) (s : string) : bool :=
  match s with
  | EmptyString => true
  | String c s' => p c && all_chars p s'
  end.

(** [c] occurs in [s]. *)
Fixpoint occurs (c : ascii) (s : string) : bool :=
  match s with
  | EmptyString => false
  | String c' s' => Ascii.eqb c' c || occurs c s'
  end.

(** The characters a decimal literal of [int] can be made of. *)
Definition literal_char (c : ascii) : bool :=
  is_digit c || Ascii.eqb c "_" || Ascii.eqb c "+" || Ascii.eqb c "-" || is_space c.

(** What [pretty] puts in front of [s] for a positive [x]: [k] digits,
    none of them white space, a digit first, that [digits] reads as [x]. *)
Definition numeral_of (x : N) (k : nat) : Prop :=
  10 ^ Z.of_nat k <= 10 * Z.of_N x
  /\ forall s : string,
      (forall (b : bool) (acc : Z),
          digits (pretty_N_go x s) b acc
          = digits s true (acc * 10 ^ Z.of_nat k + Z.of_N x))
      /\ digit_count (pretty_N_go x s) = (digit_count s + k)%nat
      /\ all_chars (fun c => negb (is_space c)) (pretty_N_go x s)
         = all_chars (fun c => negb (is_space c)) s
      /\ exists (c : ascii) (t : string),
           pretty_N_go x s = String c t /\ is_digit c = true.

(** The letter e with an acute accent, U+00E9. *)
Definition e_acute : string := String "233" "".

(** The four lines [main] hands to [print], as text. *)
Definition main_lines (w : world) : list string :=
  [ "Python Web Application" +:+ newline;
    "Please uncomment and configure your chosen framework above." +:+ newline;
    ("Environment: " +:+ env_or w "ENVIRONMENT" "development") +:+ newline;
    ("Port: " +:+ env_or w "PORT" "8000") +:+ newline ].

(** The lines a stream takes, up to the first it refuses. *)
Fixpoint accepted (enc : string -> result string) (ls : list string) : list string :=
  match ls with
  | [] => []
  | l :: rest =>
      match enc l with
      | Ok _ => l :: accepted enc rest
      | Raise _ => []
      end
  end.

(** The bytes it makes of them. *)
Fixpoint encoded (enc : string -> result string) (ls : list string) : list string :=
  match ls with
  | [] => []
  | l :: rest =>
      match enc l with
      | Ok bytes => bytes :: encoded enc rest
      | Raise _ => []
      end
  end.

(** The exception of the first line it refuses. *)
Fixpoint refusal (enc : string -> result string) (ls : list string) : option exn :=
  match ls with
  | [] => None
  | l :: rest =>
      match enc l with
      | Ok _ => refusal enc rest
      | Raise e => Some e
      end
  end.

(** * Properties *)

(** ** The monad's equations *)

Lemma bind_ok {A B : Type} (m : M A) (k : A -> M B) (w w' : world) (a : A) :
  m w = (Ok a, w') -> bind m k w = k a w'.
Proof. intros H. unfold bind. rewrite H. reflexivity. Qed.

Lemma bind_raise {A B : Type} (m : M A) (k : A -> M B) (w w' : world) (e : exn) :
  m w = (Raise e, w') -> bind m k w = (Raise e, w').
Proof. intros H. unfold bind. rewrite H. reflexivity. Qed.

(** Unfolds the monad and the builtins that only read or write the world. *)
Ltac run_py :=
  unfold bind, ret, raise, gets, modify, os_getenv, string_statement,
    set_stdout, set_stdout_bytes, set_environ, set_routes, set_bind_log,
    set_listening, set_served;
  simpl.

(** ** Text *)

Lemma count_newlines_app (a b : string) :
  count_newlines (a +:+ b) = (count_newlines a + count_newlines b)%nat.
Proof.
  induction a as [|c a IH]; simpl; [reflexivity|].
  rewrite IH. lia.
Qed.

(** ** [main] and the module body *)

Ltac step_world :=
  cbn [fst snd accepted encoded refusal py_str
       environ stdout routes bind_log listening served can_bind
       incoming stdout_encode stdout_bytes].

Ltac case_lines enc :=
  repeat match goal with
         | |- context [match enc ?l with _ => _ end] => destruct (enc l); step_world
         end.

Lemma main_runs (w : world) :
  main w =
    (match refusal (stdout_encode w) (main_lines w) with
     | None => Ok PNone
     | Some e => Raise e
     end,
     set_stdout_bytes (fun out => out ++ encoded (stdout_encode w) (main_lines w))
       (set_stdout (fun out => out ++ accepted (stdout_encode w) (main_lines w)) w)).
Proof.
  destruct w as [env out rts bl li sv cb inc enc bytes].
  unfold main, main_lines, env_or, print, bind, os_getenv, gets, ret,
    set_stdout, set_stdout_bytes.
  step_world.
  destruct (enc ("Python Web Application" +:+ newline)); step_world;
    [|rewrite !app_nil_r; reflexivity].
  destruct (enc ("Please uncomment and configure your chosen framework above." +:+ newline));
    step_world; [|rewrite <- ?app_assoc; reflexivity].
  destruct (env !! "ENVIRONMENT"); step_world;
    (match goal with |- context [match enc ?l with _ => _ end] => destruct (enc l) end;
     step_world; [|rewrite <- ?app_assoc; reflexivity]);
    (destruct (env !! "PORT"); step_world; case_lines enc;
     rewrite <- ?app_assoc; reflexivity).
Qed.

Lemma printed_main (w : world) :
  printed main w = accepted (stdout_encode w) (main_lines w).
Proof.
  unfold printed. rewrite main_runs. unfold set_stdout, set_stdout_bytes; simpl.
  apply drop_app_length.
Qed.

Lemma written_main (w : world) :
  written main w = encoded (stdout_encode w) (main_lines w).
Proof.
  unfold written. rewrite main_runs. unfold set_stdout, set_stdout_bytes; simpl.
  apply drop_app_length.
Qed.

(** *** What a stream takes *)

Lemma accepted_all (enc : string -> result string) (ls : list string) :
  refusal enc ls = None -> accepted enc ls = ls.
Proof.
  induction ls as [|l ls IH]; simpl; [reflexivity|].
  destruct (enc l); [|discriminate]. intros H. rewrite IH by exact H. reflexivity.
Qed.

Lemma accepted_short (enc : string -> result string) (ls : list string) (e : exn) :
  refusal enc ls = Some e -> (length (accepted enc ls) < length ls)%nat.
Proof.
  induction ls as [|l ls IH]; simpl; [discriminate|].
  destruct (enc l); simpl; [|lia]. intros H. apply IH in H. lia.
Qed.

Lemma accepted_length (enc : string -> result string) (ls : list string) :
  (length (accepted enc ls) <= length ls)%nat.
Proof.
  induction ls as [|l ls IH]; simpl; [lia|].
  destruct (enc l); simpl; lia.
Qed.

Lemma encoded_length (enc : string -> result string) (ls : list string) :
  length (encoded enc ls) = length (accepted enc ls).
Proof.
  induction ls as [|l ls IH]; simpl; [reflexivity|].
  destruct (enc l); simpl; [rewrite IH|]; reflexivity.
Qed.

(** What was taken is the front of what was offered. *)
Lemma accepted_lookup (enc : string -> result string) (ls : list string)
    (i : nat) (l : string) :
  accepted enc ls !! i = Some l -> ls !! i = Some l.
Proof.
  revert i. induction ls as [|l' ls IH]; intros i; simpl; [discriminate|].
  destruct (enc l'); [|discriminate].
  destruct i as [|i]; simpl; [trivial|apply IH].
Qed.

Lemma same_codec (enc1 enc2 : string -> result string) (ls : list string) :
  (forall l : string, In l ls -> enc1 l = enc2 l) ->
  accepted enc1 ls = accepted enc2 ls
  /\ encoded enc1 ls = encoded enc2 ls
  /\ refusal enc1 ls = refusal enc2 ls.
Proof.
  induction ls as [|l ls IH]; intros H; simpl; [repeat split|].
  rewrite <- (H l) by (left; reflexivity).
  destruct IH as (Ha & He & Hr); [intros l' Hl'; apply H; right; exact Hl'|].
  destruct (enc1 l); [rewrite Ha, He, Hr|]; repeat split.
Qed.

(** *** The codecs of the table *)

Lemma encode_ascii_text (e : encoding) (h : error_handler) (text : string) :
  all_chars is_ascii text = true -> encode e h text = Ok text.
Proof.
  induction text as [|c text IH]; simpl; [reflexivity|].
  intros H. apply andb_prop in H as [Hc Ht].
  unfold encode_char. rewrite Hc, IH by exact Ht. reflexivity.
Qed.

Lemma takes_all (enc : string -> result string) (ls : list string) :
  (forall l : string, In l ls -> exists bytes : string, enc l = Ok bytes) ->
  refusal enc ls = None.
Proof.
  induction ls as [|l ls IH]; intros H; simpl; [reflexivity|].
  destruct (H l) as [bytes ->]; [left; reflexivity|].
  apply IH. intros l' Hl'. apply H. right. exact Hl'.
Qed.

Section AppPyFacts.
Variable load_dotenv : gmap string string -> gmap string string.

Lemma app_py_runs (w : world) :
  app_py load_dotenv "__main__" w =
    (match refusal (stdout_encode w) (main_lines (set_environ load_dotenv w)) with
     | None => Ok tt
     | Some e => Raise e
     end,
     set_stdout_bytes
       (fun out => out ++ encoded (stdout_encode w) (main_lines (set_environ load_dotenv w)))
       (set_stdout
          (fun out => out ++ accepted (stdout_encode w) (main_lines (set_environ load_dotenv w)))
          (set_environ load_dotenv w))).
Proof.
  unfold app_py. simpl String.eqb. cbv iota.
  unfold bind at 1. unfold modify at 1.
  unfold bind at 1. unfold string_statement at 1. unfold bind at 1, ret at 1, ret at 1.
  unfold bind at 1. unfold string_statement at 1. unfold bind at 1, ret at 1, ret at 1.
  unfold bind. rewrite main_runs.
  change (stdout_encode (set_environ load_dotenv w)) with (stdout_encode w).
  destruct (refusal (stdout_encode w) (main_lines (set_environ load_dotenv w)));
    reflexivity.
Qed.

Lemma printed_app_py (w : world) :
  printed (app_py load_dotenv "__main__") w
  = accepted (stdout_encode w) (main_lines (set_environ load_dotenv w)).
Proof.
  unfold printed. rewrite app_py_runs. unfold set_stdout, set_stdout_bytes; simpl.
  apply drop_app_length.
Qed.

Lemma written_app_py (w : world) :
  written (app_py load_dotenv "__main__") w
  = encoded (stdout_encode w) (main_lines (set_environ load_dotenv w)).
Proof.
  unfold written. rewrite app_py_runs. unfold set_stdout, set_stdout_bytes; simpl.
  apply drop_app_length.
Qed.

(** A module that is imported, not run, prints nothing. *)
Lemma app_py_imported (name : string) (w : world) :
  name <> "__main__" ->
  app_py load_dotenv name w = (Ok tt, set_environ load_dotenv w).
Proof.
  intros Hname. unfold app_py.
  destruct (String.eqb_spec name "__main__") as [E|_]; [contradiction|].
  reflexivity.
Qed.

End AppPyFacts.

(** ** Serving *)

Section Serving.
Variable a : application.
Variable table : string -> answer.
Hypothesis dispatch_table :
  forall (r : request) (w : world), dispatch a r w = (Ok (table (path r)), w).

(** With view functions that leave the world alone, serving only
    extends the log, each request with the answer of its path. *)
Lemma serve_table (rs : list request) (w : world) :
  serve a rs w =
    (Ok tt, set_served (fun log => log ++ map (fun r => (r, table (path r))) rs) w).
Proof.
  revert w. induction rs as [|r rs IH]; intros w.
  - simpl. unfold ret, set_served. rewrite app_nil_r. destruct w; reflexivity.
  - simpl. unfold bind at 1. rewrite dispatch_table.
    unfold bind at 1. unfold modify at 1. rewrite IH.
    unfold set_served; simpl. rewrite <- app_assoc. reflexivity.
Qed.

Lemma run_bound (host : string) (port : Z) (debug : bool) (w : world) :
  can_bind w host port = true ->
  run a host port debug w =
    (Ok tt,
     set_served (fun log => log ++ map (fun r => (r, table (path r))) (incoming w))
       (set_listening (Some (host, port, debug))
          (set_bind_log (fun log => log ++ [(host, port)]) w))).
Proof.
  intros Hb. unfold run.
  unfold bind at 1. unfold modify at 1.
  unfold bind at 1. unfold gets at 1.
  change (can_bind (set_bind_log _ w) host port) with (can_bind w host port).
  rewrite Hb.
  unfold bind at 1. unfold modify at 1.
  unfold bind at 1. unfold gets at 1.
  rewrite serve_table. reflexivity.
Qed.

End Serving.

Lemma run_refused (a : application) (host : string) (port : Z) (debug : bool) (w : world) :
  can_bind w host port = false ->
  run a host port debug w =
    (Raise BindError, set_bind_log (fun log => log ++ [(host, port)]) w).
Proof.
  intros Hb. unfold run.
  unfold bind at 1. unfold modify at 1.
  unfold bind at 1. unfold gets at 1.
  change (can_bind (set_bind_log _ w) host port) with (can_bind w host port).
  rewrite Hb. reflexivity.
Qed.

(** ** The blocks *)

Lemma port_reads (w : world) :
  FlaskBlock.port w =
    (match configured_port w with Some p => Ok p | None => Raise ValueError end, w).
Proof.
  unfold FlaskBlock.port, configured_port. run_py.
  destruct (environ w !! "PORT") as [v|]; simpl; [|reflexivity].
  destruct (int_of_str v); reflexivity.
Qed.

Lemma flask_app_builds (w : world) :
  FlaskBlock.app w =
    (Ok (Application [("/health", "health"); ("/", "index")]
                     [("health", FlaskBlock.health); ("index", FlaskBlock.index)]),
     set_routes (fun rs => rs ++ [("/health", "health"); ("/", "index")]) w).
Proof.
  unfold FlaskBlock.app, add_route. run_py. rewrite <- app_assoc. reflexivity.
Qed.

Lemma fastapi_app_builds (w : world) :
  FastAPIBlock.app w =
    (Ok (Application [("/health", "health"); ("/", "root")]
                     [("health", FastAPIBlock.health); ("root", FastAPIBlock.root)]),
     set_routes (fun rs => rs ++ [("/health", "health"); ("/", "root")]) w).
Proof.
  unfold FastAPIBlock.app, add_route. run_py. rewrite <- app_assoc. reflexivity.
Qed.

Lemma flask_dispatch (r : request) (w : world) :
  dispatch (Application [("/health", "health"); ("/", "index")]
                        [("health", FlaskBlock.health); ("index", FlaskBlock.index)]) r w
  = (Ok (http_surface (path r)), w).
Proof.
  unfold dispatch, http_surface. cbn [rules view_functions lookup_first].
  rewrite (String.eqb_sym "/health"), (String.eqb_sym "/").
  destruct (path r =? "/health")%string; [reflexivity|].
  destruct (path r =? "/")%string; reflexivity.
Qed.

Lemma fastapi_dispatch (r : request) (w : world) :
  dispatch (Application [("/health", "health"); ("/", "root")]
                        [("health", FastAPIBlock.health); ("root", FastAPIBlock.root)]) r w
  = (Ok (http_surface (path r)), w).
Proof.
  unfold dispatch, http_surface. cbn [rules view_functions lookup_first].
  rewrite (String.eqb_sym "/health"), (String.eqb_sym "/").
  destruct (path r =? "/health")%string; [reflexivity|].
  destruct (path r =? "/")%string; reflexivity.
Qed.

(** *** Lower-casing *)

Lemma lower_char_letter (l c : ascii) :
  In l ["t"; "r"; "u"; "e"]%char ->
  lower_char c = l <-> either_case l c.
Proof.
  intros Hl. unfold either_case.
  destruct Hl as [<-|[<-|[<-|[<-|[]]]]];
    destruct c as [[] [] [] [] [] [] [] []]; vm_compute;
    (split; [ intros H; first [ left; exact H | right; reflexivity | discriminate H ]
            | intros [H|H]; first [ reflexivity | discriminate H ] ]).
Qed.

Lemma lower_true (v : string) :
  lower v = "true" <->
  exists c1 c2 c3 c4 : ascii,
    v = String c1 (String c2 (String c3 (String c4 EmptyString)))
    /\ either_case "t" c1 /\ either_case "r" c2
    /\ either_case "u" c3 /\ either_case "e" c4.
Proof.
  split.
  - destruct v as [|c1 [|c2 [|c3 [|c4 [|c5 v]]]]]; simpl; try discriminate.
    intros H. injection H as H1 H2 H3 H4.
    exists c1, c2, c3, c4. split; [reflexivity|].
    repeat split; apply lower_char_letter; simpl; auto.
  - intros (c1 & c2 & c3 & c4 & -> & H1 & H2 & H3 & H4). simpl.
    apply lower_char_letter in H1, H2, H3, H4; simpl; auto 6.
    rewrite H1, H2, H3, H4. reflexivity.
Qed.

Lemma debug_reads (w : world) :
  FlaskBlock.debug w = (Ok (String.eqb (lower (env_or w "DEBUG" "False")) "true"), w).
Proof.
  unfold FlaskBlock.debug, env_or, str_lower. run_py.
  destruct (environ w !! "DEBUG"); reflexivity.
Qed.

(** *** The scripts, case by case *)

Lemma flask_script_runs (w : world) :
  FlaskBlock.script "__main__" w =
    let registered := set_routes (fun rs => rs ++ [("/health", "health"); ("/", "index")]) w in
    match configured_port w with
    | None => (Raise ValueError, registered)
    | Some p =>
        let tried := set_bind_log (fun log => log ++ [("0.0.0.0", p)]) registered in
        if can_bind w "0.0.0.0" p then
          (Ok tt,
           set_served (fun log => log ++ map (fun r => (r, http_surface (path r))) (incoming w))
             (set_listening
                (Some ("0.0.0.0", p, String.eqb (lower (env_or w "DEBUG" "False")) "true"))
                tried))
        else (Raise BindError, tried)
    end.
Proof.
  unfold FlaskBlock.script. simpl String.eqb. cbv iota.
  unfold bind at 1. rewrite flask_app_builds.
  unfold FlaskBlock.startup.
  unfold bind at 1. rewrite port_reads.
  change (configured_port (set_routes _ w)) with (configured_port w).
  cbv zeta.
  destruct (configured_port w) as [p|]; [|reflexivity].
  unfold bind at 1. rewrite debug_reads.
  change (env_or (set_routes _ w) "DEBUG" "False") with (env_or w "DEBUG" "False").
  destruct (can_bind w "0.0.0.0" p) eqn:Hb.
  - rewrite (run_bound _ http_surface flask_dispatch) by exact Hb. reflexivity.
  - rewrite run_refused by exact Hb. reflexivity.
Qed.

Lemma fastapi_script_runs (w : world) :
  FastAPIBlock.script "__main__" w =
    let registered := set_routes (fun rs => rs ++ [("/health", "health"); ("/", "root")]) w in
    match configured_port w with
    | None => (Raise ValueError, registered)
    | Some p =>
        let tried := set_bind_log (fun log => log ++ [("0.0.0.0", p)]) registered in
        if can_bind w "0.0.0.0" p then
          (Ok tt,
           set_served (fun log => log ++ map (fun r => (r, http_surface (path r))) (incoming w))
             (set_listening (Some ("0.0.0.0", p, false)) tried))
        else (Raise BindError, tried)
    end.
Proof.
  unfold FastAPIBlock.script. simpl String.eqb. cbv iota.
  unfold bind at 1. rewrite fastapi_app_builds.
  unfold FastAPIBlock.startup.
  unfold bind at 1. change FastAPIBlock.port with FlaskBlock.port. rewrite port_reads.
  change (configured_port (set_routes _ w)) with (configured_port w).
  cbv zeta.
  destruct (configured_port w) as [p|]; [|reflexivity].
  destruct (can_bind w "0.0.0.0" p) eqn:Hb.
  - rewrite (run_bound _ http_surface fastapi_dispatch) by exact Hb. reflexivity.
  - rewrite run_refused by exact Hb. reflexivity.
Qed.

(** ** Strings *)

Lemma append_cons (c : ascii) (s t : string) :
  String c s +:+ t = String c (s +:+ t).
Proof. reflexivity. Qed.

Lemma append_nil_l (t : string) : "" +:+ t = t.
Proof. reflexivity. Qed.

Lemma append_assoc (s t u : string) : (s +:+ t) +:+ u = s +:+ t +:+ u.
Proof.
  induction s as [|c s IH]; [reflexivity|].
  rewrite !append_cons, IH. reflexivity.
Qed.

Lemma rev_app_append (s1 s2 : string) :
  String.rev_app s1 s2 = String.rev s1 +:+ s2.
Proof.
  unfold String.rev. revert s2.
  induction s1 as [|c s1 IH]; intros s2; simpl; [reflexivity|].
  rewrite IH, (IH (String c "")), append_assoc. reflexivity.
Qed.

Lemma rev_cons (c : ascii) (s : string) :
  String.rev (String c s) = String.rev s +:+ String c "".
Proof. unfold String.rev at 1. simpl. apply rev_app_append. Qed.

Lemma append_empty_r (s : string) : s +:+ "" = s.
Proof.
  induction s as [|c s IH]; [reflexivity|].
  rewrite append_cons, IH. reflexivity.
Qed.

Lemma rev_append (s t : string) :
  String.rev (s +:+ t) = String.rev t +:+ String.rev s.
Proof.
  induction s as [|c s IH].
  - rewrite append_nil_l. change (String.rev "") with "".
    rewrite append_empty_r. reflexivity.
  - rewrite append_cons, !rev_cons, IH, append_assoc. reflexivity.
Qed.

Lemma rev_involutive (s : string) : String.rev (String.rev s) = s.
Proof.
  induction s as [|c s IH]; [reflexivity|].
  rewrite rev_cons, rev_append, IH. reflexivity.
Qed.

Lemma all_chars_append (p : ascii -> bool) (s t : string) :
  all_chars p (s +:+ t) = all_chars p s && all_chars p t.
Proof.
  induction s as [|c s IH]; [reflexivity|].
  rewrite append_cons. simpl. rewrite IH, andb_assoc. reflexivity.
Qed.

Lemma all_chars_rev (p : ascii -> bool) (s : string) :
  all_chars p (String.rev s) = all_chars p s.
Proof.
  induction s as [|c s IH]; [reflexivity|].
  rewrite rev_cons, all_chars_append, IH. simpl.
  rewrite andb_true_r, andb_comm. reflexivity.
Qed.

Lemma occurs_append (c : ascii) (s t : string) :
  occurs c (s +:+ t) = occurs c s || occurs c t.
Proof.
  induction s as [|c' s IH]; [reflexivity|].
  rewrite append_cons. simpl. rewrite IH, orb_assoc. reflexivity.
Qed.

Lemma occurs_rev (c : ascii) (s : string) :
  occurs c (String.rev s) = occurs c s.
Proof.
  induction s as [|c' s IH]; [reflexivity|].
  rewrite rev_cons, occurs_append, IH. simpl.
  rewrite orb_false_r, orb_comm. reflexivity.
Qed.

(** *** Stripping *)

Lemma lstrip_blank (s : string) :
  all_chars is_space s = true -> lstrip s = "".
Proof.
  induction s as [|c s IH]; simpl; [reflexivity|].
  intros H. apply andb_prop in H as [Hc Hs]. rewrite Hc. apply IH, Hs.
Qed.

Lemma lstrip_blank_append (pre s : string) :
  all_chars is_space pre = true -> lstrip (pre +:+ s) = lstrip s.
Proof.
  induction pre as [|c pre IH]; [reflexivity|].
  rewrite append_cons. simpl.
  intros H. apply andb_prop in H as [Hc Hs]. rewrite Hc. apply IH, Hs.
Qed.

Lemma lstrip_append (s t : string) :
  all_chars is_space s = false -> lstrip (s +:+ t) = lstrip s +:+ t.
Proof.
  induction s as [|c s IH]; [discriminate|].
  rewrite append_cons. simpl.
  destruct (is_space c); simpl; [exact IH|reflexivity].
Qed.

Lemma rstrip_blank (s : string) :
  all_chars is_space s = true -> rstrip s = "".
Proof.
  intros H. unfold rstrip. rewrite lstrip_blank; [reflexivity|].
  rewrite all_chars_rev. exact H.
Qed.

Lemma rstrip_append_blank (s post : string) :
  all_chars is_space post = true -> rstrip (s +:+ post) = rstrip s.
Proof.
  intros H. unfold rstrip. rewrite rev_append, lstrip_blank_append; [reflexivity|].
  rewrite all_chars_rev. exact H.
Qed.

Lemma lstrip_blank_iff (s : string) :
  all_chars is_space (lstrip s) = all_chars is_space s.
Proof.
  induction s as [|c s IH]; simpl; [reflexivity|].
  destruct (is_space c) eqn:Hc; simpl; [exact IH|]. rewrite Hc. reflexivity.
Qed.

Lemma lstrip_no_space (s : string) :
  all_chars (fun c => negb (is_space c)) s = true -> lstrip s = s.
Proof.
  destruct s as [|c s]; simpl; [reflexivity|].
  intros H. apply andb_prop in H as [Hc _].
  destruct (is_space c); [discriminate|reflexivity].
Qed.

Lemma strip_no_space (s : string) :
  all_chars (fun c => negb (is_space c)) s = true -> rstrip (lstrip s) = s.
Proof.
  intros H. rewrite lstrip_no_space by exact H. unfold rstrip.
  rewrite lstrip_no_space by (rewrite all_chars_rev; exact H).
  apply rev_involutive.
Qed.

Lemma occurs_lstrip (c : ascii) (s : string) :
  is_space c = false -> occurs c (lstrip s) = occurs c s.
Proof.
  intros Hc. induction s as [|c' s IH]; simpl; [reflexivity|].
  destruct (is_space c') eqn:Hc'; simpl; [|reflexivity].
  rewrite IH. destruct (Ascii.eqb_spec c' c) as [->|_]; [congruence|reflexivity].
Qed.

Lemma occurs_strip (c : ascii) (s : string) :
  is_space c = false -> occurs c (rstrip (lstrip s)) = occurs c s.
Proof.
  intros Hc. unfold rstrip.
  rewrite occurs_rev, occurs_lstrip, occurs_rev, occurs_lstrip by exact Hc.
  reflexivity.
Qed.

(** ** [int] on strings *)

Lemma int_of_str_head (s : string) :
  match rstrip (lstrip s) with
  | EmptyString => int_of_str s = None
  | String c t =>
      if Ascii.eqb c "+" then int_of_str s = unsigned_int t
      else if Ascii.eqb c "-" then int_of_str s = Z.opp <$> unsigned_int t
      else int_of_str s = unsigned_int (String c t)
  end.
Proof.
  unfold int_of_str. destruct (rstrip (lstrip s)) as [|c t]; [reflexivity|].
  destruct c as [[] [] [] [] [] [] [] []]; reflexivity.
Qed.

Lemma int_of_str_blank (v : string) :
  all_chars is_space v = true -> int_of_str v = None.
Proof.
  intros H. unfold int_of_str. rewrite lstrip_blank by exact H. reflexivity.
Qed.

Lemma strip_padding (pre v post : string) :
  all_chars is_space pre = true -> all_chars is_space post = true ->
  rstrip (lstrip (pre +:+ v +:+ post)) = rstrip (lstrip v).
Proof.
  intros Hpre Hpost. rewrite lstrip_blank_append by exact Hpre.
  destruct (all_chars is_space v) eqn:Hv.
  - rewrite (lstrip_blank v) by exact Hv.
    rewrite lstrip_blank; [reflexivity|].
    rewrite all_chars_append, Hv, Hpost. reflexivity.
  - rewrite lstrip_append by exact Hv. apply rstrip_append_blank, Hpost.
Qed.

Lemma int_of_str_padding (pre v post : string) :
  all_chars is_space pre = true -> all_chars is_space post = true ->
  int_of_str (pre +:+ v +:+ post) = int_of_str v.
Proof.
  intros Hpre Hpost. unfold int_of_str.
  rewrite strip_padding by assumption. reflexivity.
Qed.

Lemma digits_reject (c : ascii) (s : string) (b : bool) (acc : Z) :
  occurs c s = true -> is_digit c = false -> Ascii.eqb c "_" = false ->
  digits s b acc = None.
Proof.
  intros Hin Hd Hu. revert b acc.
  induction s as [|c' s IH]; intros b acc; [discriminate Hin|].
  simpl in Hin |- *.
  destruct (Ascii.eqb_spec c' c) as [->|Hne].
  - rewrite Hd, Hu. reflexivity.
  - simpl in Hin. specialize (IH Hin).
    destruct (is_digit c'); [apply IH|].
    destruct (Ascii.eqb c' "_" && b); [apply IH|reflexivity].
Qed.

Lemma unsigned_int_reject (c : ascii) (s : string) :
  occurs c s = true -> is_digit c = false -> Ascii.eqb c "_" = false ->
  unsigned_int s = None.
Proof.
  intros Hin Hd Hu. unfold unsigned_int.
  destruct (max_str_digits <? digit_count s)%nat; [reflexivity|].
  apply (digits_reject c); assumption.
Qed.

Lemma int_of_str_reject (c : ascii) (v : string) :
  occurs c v = true -> literal_char c = false -> int_of_str v = None.
Proof.
  unfold literal_char. intros Hin Hc.
  apply orb_false_elim in Hc as [Hc Hspace].
  apply orb_false_elim in Hc as [Hc Hminus].
  apply orb_false_elim in Hc as [Hc Hplus].
  apply orb_false_elim in Hc as [Hdigit Hunder].
  rewrite <- (occurs_strip c v Hspace) in Hin.
  pose proof (int_of_str_head v) as Hhead.
  destruct (rstrip (lstrip v)) as [|h t]; [exact Hhead|].
  simpl in Hin.
  destruct (Ascii.eqb_spec h "+") as [->|_].
  - rewrite Hhead. rewrite Ascii.eqb_sym, Hplus in Hin.
    apply (unsigned_int_reject c); assumption.
  - destruct (Ascii.eqb_spec h "-") as [->|_].
    + rewrite Hhead. rewrite Ascii.eqb_sym, Hminus in Hin.
      rewrite (unsigned_int_reject c); [reflexivity|assumption..].
    + rewrite Hhead. apply (unsigned_int_reject c); assumption.
Qed.

(** *** Decimal numerals *)

Lemma pretty_N_char_digit (d : N) :
  (d < 10)%N ->
  is_digit (pretty_N_char d) = true
  /\ digit_value (pretty_N_char d) = Z.of_N d
  /\ is_space (pretty_N_char d) = false.
Proof.
  intros Hd.
  assert (d = 0 \/ d = 1 \/ d = 2 \/ d = 3 \/ d = 4 \/ d = 5
          \/ d = 6 \/ d = 7 \/ d = 8 \/ d = 9)%N as H by lia.
  repeat destruct H as [->|H]; try subst d; repeat split.
Qed.

Lemma pretty_N_go_numeral (x : N) :
  (0 < x)%N -> exists k : nat, numeral_of x k.
Proof.
  induction (N.lt_wf_0 x) as [x _ IH]. intros Hx.
  assert (Hd : (N.modulo x 10 < 10)%N) by (apply N.mod_lt; lia).
  destruct (pretty_N_char_digit _ Hd) as (Hdigit & Hvalue & Hspace).
  assert (Hsplit : Z.of_N x = 10 * Z.of_N (N.div x 10) + Z.of_N (N.modulo x 10)).
  { rewrite <- N2Z.inj_mul with (n := 10%N), <- N2Z.inj_add. f_equal.
    apply N.div_mod. lia. }
  destruct (N.eq_dec (N.div x 10) 0%N) as [Hz|Hnz].
  - exists 1%nat. split.
    + change (10 ^ Z.of_nat 1) with 10. lia.
    + intros s. rewrite pretty_N_go_step by exact Hx. rewrite Hz, pretty_N_go_0.
      split; [|split; [|split]].
      * intros b acc. simpl digits. rewrite Hdigit, Hvalue.
        rewrite Hz in Hsplit. change (10 ^ Z.of_nat 1) with 10.
        change (Z.of_N 0) with 0 in Hsplit. f_equal.
        revert Hsplit. generalize (Z.of_N (N.modulo x 10)) (Z.of_N x).
        clear. intros r z. lia.
      * simpl. rewrite Hdigit. lia.
      * simpl. rewrite Hspace. reflexivity.
      * eexists _, _. split; [reflexivity|exact Hdigit].
  - destruct (IH (N.div x 10)) as (k & Hk & Hgo).
    { apply N.div_lt; lia. }
    { lia. }
    exists (S k). split.
    + rewrite Nat2Z.inj_succ, Z.pow_succ_r by lia.
      pose proof (N2Z.is_nonneg (N.modulo x 10)) as Hr.
      revert Hk Hsplit Hr.
      generalize (Z.of_N (N.modulo x 10)) (Z.of_N (N.div x 10)) (Z.of_N x)
        (10 ^ Z.of_nat k).
      clear. intros r q z pw. lia.
    + intros s. rewrite pretty_N_go_step by exact Hx.
      destruct (Hgo (String (pretty_N_char (N.modulo x 10)) s))
        as (Hdigits & Hcount & Hchars & c & t & Hhead & Hc).
      split; [|split; [|split]].
      * intros b acc. rewrite Hdigits. simpl digits. rewrite Hdigit, Hvalue.
        rewrite Nat2Z.inj_succ, Z.pow_succ_r by lia. f_equal.
        revert Hsplit.
        generalize (Z.of_N (N.modulo x 10)) (Z.of_N (N.div x 10)) (Z.of_N x)
          (10 ^ Z.of_nat k).
        clear. intros r q z pw. lia.
      * rewrite Hcount. simpl. rewrite Hdigit. lia.
      * rewrite Hchars. simpl. rewrite Hspace. reflexivity.
      * exists c, t. split; assumption.
Qed.

Lemma int_of_str_digits_first (s : string) (c : ascii) (t : string) :
  rstrip (lstrip s) = String c t -> is_digit c = true ->
  int_of_str s = unsigned_int (String c t).
Proof.
  intros Hs Hc. pose proof (int_of_str_head s) as H. rewrite Hs in H.
  destruct (Ascii.eqb_spec c "+") as [->|_]; [discriminate Hc|].
  destruct (Ascii.eqb_spec c "-") as [->|_]; [discriminate Hc|].
  exact H.
Qed.

Lemma unsigned_int_numeral (x : N) :
  (0 < x)%N -> Z.of_N x < 10 ^ Z.of_nat max_str_digits ->
  unsigned_int (pretty_N_go x "") = Some (Z.of_N x)
  /\ rstrip (lstrip (pretty_N_go x "")) = pretty_N_go x ""
  /\ all_chars (fun c => negb (is_space c)) (pretty_N_go x "") = true
  /\ exists (c : ascii) (t : string), pretty_N_go x "" = String c t /\ is_digit c = true.
Proof.
  intros Hx Hbound.
  destruct (pretty_N_go_numeral x Hx) as (k & Hk & Hgo).
  destruct (Hgo "") as (Hdigits & Hcount & Hchars & Hhead).
  assert (Hle : (k <= max_str_digits)%nat).
  { destruct (Nat.le_gt_cases k max_str_digits) as [H|H]; [exact H|exfalso].
    assert (10 ^ Z.of_nat (S max_str_digits) <= 10 ^ Z.of_nat k)
      by (apply Z.pow_le_mono_r; lia).
    rewrite Nat2Z.inj_succ, Z.pow_succ_r in H0 by lia. lia. }
  split; [|split; [|split]].
  - unfold unsigned_int. rewrite Hcount. simpl digit_count.
    destruct (Nat.ltb_spec max_str_digits (0 + k)); [lia|].
    rewrite Hdigits. simpl. f_equal.
  - apply strip_no_space. rewrite Hchars. reflexivity.
  - rewrite Hchars. reflexivity.
  - exact Hhead.
Qed.

(** [int] reads back the decimal numeral of every integer within the
    interpreter's bound on digits. *)
Lemma int_of_str_pretty (n : Z) :
  Z.abs n < 10 ^ Z.of_nat max_str_digits ->
  int_of_str (pretty n) = Some n.
Proof.
  intros Hn. destruct n as [|p|p].
  - reflexivity.
  - change (pretty (Z.pos p)) with (pretty_N_go (N.pos p) "").
    destruct (unsigned_int_numeral (N.pos p)) as (Hval & Hstrip & _ & c & t & Hhead & Hc);
      [lia|exact Hn|].
    rewrite (int_of_str_digits_first _ c t); [rewrite <- Hhead; exact Hval| |exact Hc].
    rewrite Hstrip. exact Hhead.
  - change (pretty (Z.neg p)) with ("-" +:+ pretty_N_go (N.pos p) "").
    destruct (unsigned_int_numeral (N.pos p)) as (Hval & _ & Hchars & _);
      [lia|exact Hn|].
    pose proof (int_of_str_head ("-" +:+ pretty_N_go (N.pos p) "")) as H.
    rewrite strip_no_space in H by (rewrite append_cons; simpl; exact Hchars).
    rewrite append_cons, append_nil_l in H. simpl in H.
    rewrite append_cons, append_nil_l, H, Hval. reflexivity.
Qed.

Lemma append_inj_r (s t u : string) : s +:+ u = t +:+ u -> s = t.
Proof.
  intros H. apply (f_equal String.rev) in H. rewrite !rev_append in H.
  apply String.app_inj in H.
  rewrite <- (rev_involutive s), <- (rev_involutive t), H. reflexivity.
Qed.

(** * The claims *)

(** ** The HTTP surface (the framework blocks) *)

(** C1.  Every GET request to [/health], whatever its query parameters and
    headers, is answered with status 200 and the body
    [{"status": "healthy", "version": "1.0.0"}]; the view function returns
    in every world, leaves it as it was and cannot fail.  Both for the
    Flask and for the FastAPI block. *)
Theorem health_fixed_response :
  (forall w : world,
      FlaskBlock.health w =
        (Ok (Response 200 (JObj [("status", JStr "healthy"); ("version", JStr "1.0.0")])), w)
      /\ FastAPIBlock.health w =
        (Ok (Response 200 (JObj [("status", JStr "healthy"); ("version", JStr "1.0.0")])), w))
  /\ built_by FlaskBlock.app (fun a =>
       forall (q h : list (string * string)) (w : world),
         dispatch a (Request "/health" q h) w =
           (Ok (Answered (Response 200
                  (JObj [("status", JStr "healthy"); ("version", JStr "1.0.0")]))), w))
  /\ built_by FastAPIBlock.app (fun a =>
       forall (q h : list (string * string)) (w : world),
         dispatch a (Request "/health" q h) w =
           (Ok (Answered (Response 200
                  (JObj [("status", JStr "healthy"); ("version", JStr "1.0.0")]))), w)).
Proof.
  split; [intros w; split; reflexivity|].
  split; intros w0.
  - eexists _, _. split; [apply flask_app_builds|].
    intros q h w. rewrite flask_dispatch. reflexivity.
  - eexists _, _. split; [apply fastapi_app_builds|].
    intros q h w. rewrite fastapi_dispatch. reflexivity.
Qed.

(** C2.  Every GET request to [/] is answered with status 200 and the
    body [{"message": "Welcome to the API"}]; the view function returns in
    every world, leaves it as it was and cannot fail.  Both for the Flask
    and for the FastAPI block. *)
Theorem welcome_fixed_response :
  (forall w : world,
      FlaskBlock.index w =
        (Ok (Response 200 (JObj [("message", JStr "Welcome to the API")])), w)
      /\ FastAPIBlock.root w =
        (Ok (Response 200 (JObj [("message", JStr "Welcome to the API")])), w))
  /\ built_by FlaskBlock.app (fun a =>
       forall (q h : list (string * string)) (w : world),
         dispatch a (Request "/" q h) w =
           (Ok (Answered (Response 200 (JObj [("message", JStr "Welcome to the API")]))), w))
  /\ built_by FastAPIBlock.app (fun a =>
       forall (q h : list (string * string)) (w : world),
         dispatch a (Request "/" q h) w =
           (Ok (Answered (Response 200 (JObj [("message", JStr "Welcome to the API")]))), w)).
Proof.
  split; [intros w; split; reflexivity|].
  split; intros w0.
  - eexists _, _. split; [apply flask_app_builds|].
    intros q h w. rewrite flask_dispatch. reflexivity.
  - eexists _, _. split; [apply fastapi_app_builds|].
    intros q h w. rewrite fastapi_dispatch. reflexivity.
Qed.

Lemma table_drift_free (a : application) (table : string -> answer) :
  (forall (r : request) (w : world), dispatch a r w = (Ok (table (path r)), w)) ->
  drift_free a.
Proof.
  intros Hd. split.
  - intros r. exists (table (path r)). intros n w.
    rewrite (serve_table a table Hd).
    rewrite map_repeat. reflexivity.
  - exists table. intros rs w. apply (serve_table a table Hd).
Qed.

(** C8.  The handlers are idempotent and do not drift: sending a request
    [n] times gives [n] times the same answer, and the answer to a request
    depends on its path alone, not on its query or headers, on the world,
    or on the requests served before.  Both for the Flask and for the
    FastAPI block. *)
Theorem handlers_do_not_drift :
  built_by FlaskBlock.app drift_free /\ built_by FastAPIBlock.app drift_free.
Proof.
  split; intros w0.
  - eexists _, _. split; [apply flask_app_builds|].
    apply (table_drift_free _ http_surface), flask_dispatch.
  - eexists _, _. split; [apply fastapi_app_builds|].
    apply (table_drift_free _ http_surface), fastapi_dispatch.
Qed.

(** ** Starting the service *)

Lemma startup_outcome_of (script : M unit) (w : world)
    (registered : world) (ok : Z -> world) :
  bind_log registered = bind_log w ->
  listening registered = listening w ->
  served registered = served w ->
  script w =
    match configured_port w with
    | None => (Raise ValueError, registered)
    | Some p =>
        if can_bind w "0.0.0.0" p then (Ok tt, ok p)
        else (Raise BindError,
              set_bind_log (fun log => log ++ [("0.0.0.0", p)]) registered)
    end ->
  startup_outcome script w
  /\ (fst (script w) = Raise BindError <->
      exists p : Z, configured_port w = Some p /\ can_bind w "0.0.0.0" p = false)
  /\ (fst (script w) = Raise ValueError <-> configured_port w = None).
Proof.
  intros Hlog Hlisten Hserved Hrun.
  unfold startup_outcome, fails_with, python. rewrite Hrun.
  destruct (configured_port w) as [p|]; [destruct (can_bind w "0.0.0.0" p) eqn:Hb|]; simpl.
  - split; [split; reflexivity|].
    split; split; try discriminate.
    intros (p' & Hp & Hb'). injection Hp as <-. congruence.
  - split.
    + repeat split; try discriminate; try assumption.
      rewrite Hlog. reflexivity.
    + split; split; try discriminate; try reflexivity.
      intros _. exists p. split; [reflexivity|exact Hb].
  - split.
    + repeat split; try discriminate; try assumption.
      rewrite Hlog, app_nil_r. reflexivity.
    + split; split; try discriminate; try reflexivity.
      intros (p' & Hp & _). discriminate Hp.
Qed.

(** C3, as amended.  Started as a script, each framework block fails with
    [BindError] exactly when it read a port ([PORT] unset, or a literal
    [int] accepts) that the system does not let it bind: then one bind was
    attempted and no other, nothing listens, no request is answered and
    the exit status is not 0.  There is a second error: when [int]
    rejects the value of [PORT], the script fails with [ValueError]
    before any bind is attempted, with the same consequences.  In every
    other case the script does not fail. *)
Theorem startup_failures (w : world) :
  (startup_outcome (FlaskBlock.script "__main__") w
   /\ (fst (FlaskBlock.script "__main__" w) = Raise BindError <->
       exists p : Z, configured_port w = Some p /\ can_bind w "0.0.0.0" p = false)
   /\ (fst (FlaskBlock.script "__main__" w) = Raise ValueError <->
       configured_port w = None))
  /\ (startup_outcome (FastAPIBlock.script "__main__") w
      /\ (fst (FastAPIBlock.script "__main__" w) = Raise BindError <->
          exists p : Z, configured_port w = Some p /\ can_bind w "0.0.0.0" p = false)
      /\ (fst (FastAPIBlock.script "__main__" w) = Raise ValueError <->
          configured_port w = None)).
Proof.
  split.
  - eapply startup_outcome_of; [| | |apply flask_script_runs]; reflexivity.
  - eapply startup_outcome_of; [| | |apply fastapi_script_runs]; reflexivity.
Qed.

(** [startup_failures] where port 8000 is taken and [PORT] is unset. *)
Lemma startup_failures_witness :
  fails_with (FlaskBlock.script "__main__")
    (fresh ∅ (fun _ p => negb (p =? 8000)) [Request "/health" [] []])
    BindError [("0.0.0.0", 8000)].
Proof.
  exact (proj1 (proj1 (startup_failures
           (fresh ∅ (fun _ p => negb (p =? 8000)) [Request "/health" [] []])))).
Defined.

(** C3 as stated fails: with [PORT=abc] and every port free, the Flask
    script fails all the same, with a [ValueError], before it attempts a
    bind; the exit status is 1. *)
Lemma invalid_port_is_a_second_error :
  fst (FlaskBlock.script "__main__"
         (fresh (<["PORT" := "abc"]> ∅) (fun _ _ => true) [Request "/health" [] []]))
    = Raise ValueError
  /\ python (FlaskBlock.script "__main__")
       (fresh (<["PORT" := "abc"]> ∅) (fun _ _ => true) [Request "/health" [] []])
     = (1, set_routes (fun _ => [("/health", "health"); ("/", "index")])
             (fresh (<["PORT" := "abc"]> ∅) (fun _ _ => true) [Request "/health" [] []])).
Proof.
  split.
  - rewrite flask_script_runs. reflexivity.
  - unfold python. rewrite flask_script_runs. reflexivity.
Qed.

(** ** The placeholder *)

Lemma lines_of_main (w : world) :
  lines_printed (main_lines w)
  = (4 + count_newlines (env_or w "ENVIRONMENT" "development")
       + count_newlines (env_or w "PORT" "8000"))%nat.
Proof.
  unfold lines_printed, main_lines. cbn [String.concat].
  rewrite !count_newlines_app.
  change (count_newlines "") with 0%nat.
  change (count_newlines newline) with 1%nat.
  change (count_newlines "Python Web Application") with 0%nat.
  change (count_newlines "Please uncomment and configure your chosen framework above.")
    with 0%nat.
  change (count_newlines "Environment: ") with 0%nat.
  change (count_newlines "Port: ") with 0%nat.
  lia.
Qed.

Lemma main_lines_ascii (w : world) :
  all_chars is_ascii (env_or w "ENVIRONMENT" "development") = true ->
  all_chars is_ascii (env_or w "PORT" "8000") = true ->
  forall l : string, In l (main_lines w) -> all_chars is_ascii l = true.
Proof.
  intros He Hp l [<-|[<-|[<-|[<-|[]]]]]; try reflexivity;
    rewrite !all_chars_append; [rewrite He|rewrite Hp]; reflexivity.
Qed.

(** Every stream of the table takes the four lines when the two values
    are ASCII. *)
Lemma table_takes_main_lines (w : world) (e : encoding) (h : error_handler) :
  all_chars is_ascii (env_or w "ENVIRONMENT" "development") = true ->
  all_chars is_ascii (env_or w "PORT" "8000") = true ->
  refusal (encode e h) (main_lines w) = None.
Proof.
  intros He Hp. apply takes_all. intros l Hl.
  exists l. apply encode_ascii_text. apply (main_lines_ascii w He Hp l Hl).
Qed.

(** C4, as amended.  Run as a script, [app.py] registers no route,
    attempts no bind, listens to nothing and answers no request, in every
    world and whatever [load_dotenv] made of the environment.  It calls
    [print] at most four times: what it prints is the front of its four
    lines that the output stream takes, and the only exception it can
    raise is the one of the stream at the first line refused.  When the
    stream takes the four lines, it terminates normally (exit status 0)
    after exactly four calls of [print], and the text has four lines plus
    one for every line feed in the values printed for [ENVIRONMENT] and
    [PORT].  Every stream of the table takes them when the two values are
    ASCII. *)
Theorem placeholder_serves_nothing
    (load_dotenv : gmap string string -> gmap string string) (w : world) :
  (routes (snd (app_py load_dotenv "__main__" w)) = routes w
   /\ bind_log (snd (app_py load_dotenv "__main__" w)) = bind_log w
   /\ listening (snd (app_py load_dotenv "__main__" w)) = listening w
   /\ served (snd (app_py load_dotenv "__main__" w)) = served w)
  /\ printed (app_py load_dotenv "__main__") w
     = accepted (stdout_encode w) (main_lines (set_environ load_dotenv w))
  /\ (length (printed (app_py load_dotenv "__main__") w) <= 4)%nat
  /\ fst (app_py load_dotenv "__main__" w)
     = match refusal (stdout_encode w) (main_lines (set_environ load_dotenv w)) with
       | None => Ok tt
       | Some e => Raise e
       end
  /\ (refusal (stdout_encode w) (main_lines (set_environ load_dotenv w)) = None ->
      fst (python (app_py load_dotenv "__main__") w) = 0
      /\ fst (app_py load_dotenv "__main__" w) = Ok tt
      /\ length (printed (app_py load_dotenv "__main__") w) = 4%nat
      /\ lines_printed (printed (app_py load_dotenv "__main__") w)
         = (4 + count_newlines (env_or (set_environ load_dotenv w) "ENVIRONMENT" "development")
              + count_newlines (env_or (set_environ load_dotenv w) "PORT" "8000"))%nat)
  /\ (forall (e : encoding) (h : error_handler),
      stdout_encode w = encode e h ->
      all_chars is_ascii (env_or (set_environ load_dotenv w) "ENVIRONMENT" "development")
      = true ->
      all_chars is_ascii (env_or (set_environ load_dotenv w) "PORT" "8000") = true ->
      refusal (stdout_encode w) (main_lines (set_environ load_dotenv w)) = None).
Proof.
  split; [rewrite app_py_runs; repeat split|].
  split; [apply printed_app_py|].
  split; [rewrite printed_app_py; apply (accepted_length _ (main_lines _))|].
  split; [rewrite app_py_runs; reflexivity|].
  split.
  - intros Hall. unfold python.
    rewrite printed_app_py, app_py_runs, Hall, (accepted_all _ _ Hall), lines_of_main.
    repeat split.
  - intros e h -> He Hp. apply table_takes_main_lines; assumption.
Qed.

(** [placeholder_serves_nothing] on the default stream, with both
    variables set. *)
Lemma placeholder_serves_nothing_witness :
  fst (python (app_py (fun env => env) "__main__")
         (fresh (<["PORT" := "5000"]> (<["ENVIRONMENT" := "production"]> ∅))
            (fun _ _ => true) [Request "/health" [] []])) = 0
  /\ served (snd (app_py (fun env => env) "__main__"
                    (fresh (<["PORT" := "5000"]> (<["ENVIRONMENT" := "production"]> ∅))
                       (fun _ _ => true) [Request "/health" [] []]))) = [].
Proof.
  pose proof (placeholder_serves_nothing (fun env => env)
                (fresh (<["PORT" := "5000"]> (<["ENVIRONMENT" := "production"]> ∅))
                   (fun _ _ => true) [Request "/health" [] []]))
    as ((_ & _ & _ & Hserved) & _ & _ & _ & Hruns & _).
  split; [apply Hruns; reflexivity|exact Hserved].
Defined.

(** C4 as stated fails twice.  With a line feed in the value of
    [ENVIRONMENT] the four calls of [print] put five lines on standard
    output.  With [PYTHONIOENCODING=ascii] and an e with an acute accent
    in [ENVIRONMENT] the third call raises [UnicodeEncodeError]: two
    lines are printed and the exit status is 1. *)
Lemma five_lines_or_an_encoding_error :
  lines_printed
    (printed (app_py (fun env => env) "__main__")
       (fresh (<["ENVIRONMENT" := "a" +:+ newline +:+ "b"]> ∅) (fun _ _ => true) []))
  = 5%nat
  /\ fst (app_py (fun env => env) "__main__"
            (fresh (<["PYTHONIOENCODING" := "ascii"]> (<["ENVIRONMENT" := e_acute]> ∅))
               (fun _ _ => true) []))
     = Raise UnicodeEncodeError
  /\ python main
       (fresh (<["PYTHONIOENCODING" := "ascii"]> (<["ENVIRONMENT" := e_acute]> ∅))
          (fun _ _ => true) [])
     = (1,
        set_stdout_bytes
          (fun _ => [ "Python Web Application" +:+ newline;
                      "Please uncomment and configure your chosen framework above."
                        +:+ newline ])
          (set_stdout
             (fun _ => [ "Python Web Application" +:+ newline;
                         "Please uncomment and configure your chosen framework above."
                           +:+ newline ])
             (fresh (<["PYTHONIOENCODING" := "ascii"]> (<["ENVIRONMENT" := e_acute]> ∅))
                (fun _ _ => true) []))).
Proof. repeat split. Qed.

(** C6, as amended.  [main] takes no argument.  It hands four lines to
    [print]: the banner, a line with the value of [ENVIRONMENT]
    ([development] when unset) and a line with the value of [PORT]
    ([8000] when unset).  When the output stream takes them it prints
    the four and returns [None], and the script exits with status 0.
    When the stream refuses one, [main] raises the stream's exception
    there, after the lines before it.  Nothing but standard output
    changes. *)
Theorem main_reports_environment_and_port (w : world) :
  printed main w =
    accepted (stdout_encode w)
      [ "Python Web Application" +:+ newline;
        "Please uncomment and configure your chosen framework above." +:+ newline;
        "Environment: "
          +:+ match environ w !! "ENVIRONMENT" with Some v => v | None => "development" end
          +:+ newline;
        "Port: "
          +:+ match environ w !! "PORT" with Some v => v | None => "8000" end
          +:+ newline ]
  /\ fst (main w) = match refusal (stdout_encode w) (main_lines w) with
                    | None => Ok PNone
                    | Some e => Raise e
                    end
  /\ snd (main w)
     = set_stdout_bytes (fun out => out ++ written main w)
         (set_stdout (fun out => out ++ printed main w) w)
  /\ (refusal (stdout_encode w) (main_lines w) = None ->
      fst (main w) = Ok PNone
      /\ printed main w =
           [ "Python Web Application" +:+ newline;
             "Please uncomment and configure your chosen framework above." +:+ newline;
             "Environment: "
               +:+ match environ w !! "ENVIRONMENT" with Some v => v | None => "development" end
               +:+ newline;
             "Port: "
               +:+ match environ w !! "PORT" with Some v => v | None => "8000" end
               +:+ newline ])
  /\ forall load_dotenv : gmap string string -> gmap string string,
       printed (app_py load_dotenv "__main__") w
       = printed main (set_environ load_dotenv w)
       /\ (refusal (stdout_encode w) (main_lines (set_environ load_dotenv w)) = None ->
           fst (python (app_py load_dotenv "__main__") w) = 0).
Proof.
  rewrite written_main, printed_main, main_runs.
  split; [reflexivity|]. split; [reflexivity|]. split; [reflexivity|].
  split.
  - intros Hall. rewrite Hall, (accepted_all _ _ Hall). split; reflexivity.
  - intros load_dotenv. split.
    + rewrite printed_app_py, printed_main. reflexivity.
    + intros Hall. unfold python. rewrite app_py_runs, Hall. reflexivity.
Qed.

(** [main_reports_environment_and_port] on an ASCII stream with the
    strict handler and [PORT=5000]. *)
Lemma main_reports_environment_and_port_witness :
  fst (main (fresh (<["PYTHONIOENCODING" := "ascii"]> (<["PORT" := "5000"]> ∅))
               (fun _ _ => true) [])) = Ok PNone
  /\ printed main (fresh (<["PYTHONIOENCODING" := "ascii"]> (<["PORT" := "5000"]> ∅))
                     (fun _ _ => true) [])
     = [ "Python Web Application" +:+ newline;
         "Please uncomment and configure your chosen framework above." +:+ newline;
         "Environment: development" +:+ newline;
         "Port: 5000" +:+ newline ].
Proof.
  pose proof (main_reports_environment_and_port
                (fresh (<["PYTHONIOENCODING" := "ascii"]> (<["PORT" := "5000"]> ∅))
                   (fun _ _ => true) []))
    as (_ & _ & _ & Hruns & _).
  exact (Hruns eq_refl).
Defined.

(** C6 as stated fails: with [PYTHONIOENCODING=ascii] and an e with an
    acute accent in [ENVIRONMENT], [main] prints the banner only and does
    not return: printing the line of [ENVIRONMENT] raises
    [UnicodeEncodeError], and the line of [PORT] is never reached. *)
Lemma main_stops_at_a_line_it_cannot_encode :
  printed main
    (fresh (<["PYTHONIOENCODING" := "ascii"]>
              (<["PORT" := "9090"]> (<["ENVIRONMENT" := e_acute]> ∅)))
       (fun _ _ => true) [])
  = [ "Python Web Application" +:+ newline;
      "Please uncomment and configure your chosen framework above." +:+ newline ]
  /\ fst (main
            (fresh (<["PYTHONIOENCODING" := "ascii"]>
                      (<["PORT" := "9090"]> (<["ENVIRONMENT" := e_acute]> ∅)))
               (fun _ _ => true) []))
     = Raise UnicodeEncodeError.
Proof. split; reflexivity. Qed.

(** C9, as amended.  Two runs of [main] in worlds that agree on
    [ENVIRONMENT], on [PORT] and on the codec of standard output print
    the same text, write the same bytes and end alike, whatever else
    differs: other variables, earlier output, routes, the state of the
    ports, the clients. *)
Theorem main_output_determined (w1 w2 : world) :
  environ w1 !! "ENVIRONMENT" = environ w2 !! "ENVIRONMENT" ->
  environ w1 !! "PORT" = environ w2 !! "PORT" ->
  (forall text : string, stdout_encode w1 text = stdout_encode w2 text) ->
  printed main w1 = printed main w2
  /\ written main w1 = written main w2
  /\ fst (main w1) = fst (main w2).
Proof.
  intros He Hp Hcodec.
  assert (Hlines : main_lines w1 = main_lines w2).
  { unfold main_lines, env_or. rewrite He, Hp. reflexivity. }
  rewrite !printed_main, !written_main, !main_runs. cbn [fst]. rewrite Hlines.
  destruct (same_codec (stdout_encode w1) (stdout_encode w2) (main_lines w2))
    as (Ha & Hb & Hr); [intros l _; apply Hcodec|].
  rewrite Ha, Hb, Hr. repeat split.
Qed.

(** [main_output_determined] at two worlds with the codec
    [ascii:replace] that differ in a third variable, in earlier output,
    in the ports and in the clients. *)
Lemma main_output_determined_witness :
  printed main
    (fresh (<["DEBUG" := "true"]>
              (<["PYTHONIOENCODING" := "ascii:replace"]> (<["ENVIRONMENT" := e_acute]> ∅)))
       (fun _ _ => true) [])
  = printed main
      (set_stdout (fun _ => ["earlier output"])
         (fresh (<["HOME" := "/root"]>
                   (<["PYTHONIOENCODING" := "ascii:replace"]>
                      (<["ENVIRONMENT" := e_acute]> ∅)))
            (fun _ _ => false) [Request "/" [] []]))
  /\ written main
       (fresh (<["DEBUG" := "true"]>
                 (<["PYTHONIOENCODING" := "ascii:replace"]> (<["ENVIRONMENT" := e_acute]> ∅)))
          (fun _ _ => true) [])
     = written main
         (set_stdout (fun _ => ["earlier output"])
            (fresh (<["HOME" := "/root"]>
                      (<["PYTHONIOENCODING" := "ascii:replace"]>
                         (<["ENVIRONMENT" := e_acute]> ∅)))
               (fun _ _ => false) [Request "/" [] []]))
  /\ fst (main
            (fresh (<["DEBUG" := "true"]>
                      (<["PYTHONIOENCODING" := "ascii:replace"]>
                         (<["ENVIRONMENT" := e_acute]> ∅)))
               (fun _ _ => true) []))
     = fst (main
              (set_stdout (fun _ => ["earlier output"])
                 (fresh (<["HOME" := "/root"]>
                           (<["PYTHONIOENCODING" := "ascii:replace"]>
                              (<["ENVIRONMENT" := e_acute]> ∅)))
                    (fun _ _ => false) [Request "/" [] []]))).
Proof.
  apply (main_output_determined
    (fresh (<["DEBUG" := "true"]>
              (<["PYTHONIOENCODING" := "ascii:replace"]> (<["ENVIRONMENT" := e_acute]> ∅)))
       (fun _ _ => true) [])
    (set_stdout (fun _ => ["earlier output"])
       (fresh (<["HOME" := "/root"]>
                 (<["PYTHONIOENCODING" := "ascii:replace"]> (<["ENVIRONMENT" := e_acute]> ∅)))
          (fun _ _ => false) [Request "/" [] []])));
    [vm_compute; reflexivity | vm_compute; reflexivity | intros text; reflexivity].
Defined.

(** C9 as stated fails: three runs with the same [ENVIRONMENT], an e with
    an acute accent, and the same [PORT], unset, that differ in
    [PYTHONIOENCODING] alone.  With [utf-8] and with [ascii:replace] the
    bytes written differ; with [ascii] the third line is not printed and
    [main] raises. *)
Lemma another_variable_changes_the_output :
  environ (fresh (<["PYTHONIOENCODING" := "utf-8"]> (<["ENVIRONMENT" := e_acute]> ∅))
             (fun _ _ => true) []) !! "ENVIRONMENT"
  = environ (fresh (<["PYTHONIOENCODING" := "ascii:replace"]> (<["ENVIRONMENT" := e_acute]> ∅))
               (fun _ _ => true) []) !! "ENVIRONMENT"
  /\ environ (fresh (<["PYTHONIOENCODING" := "utf-8"]> (<["ENVIRONMENT" := e_acute]> ∅))
                (fun _ _ => true) []) !! "PORT"
     = environ (fresh (<["PYTHONIOENCODING" := "ascii:replace"]> (<["ENVIRONMENT" := e_acute]> ∅))
                  (fun _ _ => true) []) !! "PORT"
  /\ written main
       (fresh (<["PYTHONIOENCODING" := "utf-8"]> (<["ENVIRONMENT" := e_acute]> ∅))
          (fun _ _ => true) [])
     <> written main
          (fresh (<["PYTHONIOENCODING" := "ascii:replace"]> (<["ENVIRONMENT" := e_acute]> ∅))
             (fun _ _ => true) [])
  /\ printed main
       (fresh (<["PYTHONIOENCODING" := "utf-8"]> (<["ENVIRONMENT" := e_acute]> ∅))
          (fun _ _ => true) [])
     <> printed main
          (fresh (<["PYTHONIOENCODING" := "ascii"]> (<["ENVIRONMENT" := e_acute]> ∅))
             (fun _ _ => true) [])
  /\ fst (main (fresh (<["PYTHONIOENCODING" := "utf-8"]> (<["ENVIRONMENT" := e_acute]> ∅))
                  (fun _ _ => true) []))
     <> fst (main (fresh (<["PYTHONIOENCODING" := "ascii"]> (<["ENVIRONMENT" := e_acute]> ∅))
                     (fun _ _ => true) [])).
Proof.
  split; [reflexivity|]. split; [reflexivity|].
  repeat split; intros H; vm_compute in H; discriminate H.
Qed.

(** ** Configuration *)

(** When [main] gets to print a fourth line, it is the line of the
    port. *)
Lemma port_line (w : world) (c : string) :
  printed main w !! 3%nat = Some c ->
  c = "Port: " +:+ env_or w "PORT" "8000" +:+ newline.
Proof.
  rewrite printed_main. intros H. apply accepted_lookup in H.
  unfold main_lines in H. simpl in H. injection H as <-. apply append_assoc.
Qed.





(** C7.  The debug flag of the Flask block is true exactly when [DEBUG]
    is set to a value whose lower-casing is [true], that is to one of the
    spellings of [true] in upper and lower case; it is false otherwise,
    and false when [DEBUG] is unset.  Reading it never fails and changes
    nothing, and it is the flag the listener is started with. *)
Theorem debug_flag_is_case_insensitive (w : world) :
  exists b : bool,
    FlaskBlock.debug w = (Ok b, w)
    /\ (b = true <-> exists v : string, environ w !! "DEBUG" = Some v /\ lower v = "true")
    /\ (b = true <->
        exists c1 c2 c3 c4 : ascii,
          environ w !! "DEBUG" = Some (String c1 (String c2 (String c3 (String c4 EmptyString))))
          /\ either_case "t" c1 /\ either_case "r" c2
          /\ either_case "u" c3 /\ either_case "e" c4)
    /\ (environ w !! "DEBUG" = None -> b = false)
    /\ (forall p : Z, configured_port w = Some p -> can_bind w "0.0.0.0" p = true ->
        listening (snd (FlaskBlock.script "__main__" w)) = Some ("0.0.0.0", p, b)).
Proof.
  eexists. split; [apply debug_reads|].
  assert (Hiff : String.eqb (lower (env_or w "DEBUG" "False")) "true" = true <->
                 exists v : string, environ w !! "DEBUG" = Some v /\ lower v = "true").
  { rewrite String.eqb_eq. unfold env_or.
    destruct (environ w !! "DEBUG") as [v|].
    - split; [intros H; exists v; split; [reflexivity|exact H]|].
      intros (v' & Hv & H). injection Hv as ->. exact H.
    - split; [discriminate|]. intros (v' & Hv & _). discriminate Hv. }
  split; [exact Hiff|]. split; [|split].
  - rewrite Hiff. split.
    + intros (v & Hv & H). apply lower_true in H.
      destruct H as (c1 & c2 & c3 & c4 & -> & H). exists c1, c2, c3, c4. split; assumption.
    + intros (c1 & c2 & c3 & c4 & Hv & H). eexists. split; [exact Hv|].
      apply lower_true. exists c1, c2, c3, c4. split; [reflexivity|exact H].
  - intros H. unfold env_or. rewrite H. reflexivity.
  - intros p Hp Hb. rewrite flask_script_runs. cbv zeta. rewrite Hp, Hb. reflexivity.
Qed.

(** [debug_flag_is_case_insensitive] at [DEBUG=TRUE]. *)
Lemma debug_flag_witness :
  FlaskBlock.debug (fresh (<["DEBUG" := "TRUE"]> ∅) (fun _ _ => true) [])
  = (Ok true, fresh (<["DEBUG" := "TRUE"]> ∅) (fun _ _ => true) []).
Proof.
  destruct (debug_flag_is_case_insensitive
              (fresh (<["DEBUG" := "TRUE"]> ∅) (fun _ _ => true) []))
    as (b & Hrun & Hiff & _).
  replace b with true in Hrun; [exact Hrun|].
  symmetry. apply Hiff. exists "TRUE". split; reflexivity.
Defined.

(** ** The tests *)

(** C10.  The fixture returns the dictionary
    [{"user": {"username": "testuser", "email": "test@example.com"}}] in
    every world and leaves the world alone; every test of the suite
    returns without raising, so each of its assertions holds, on every
    run. *)
Theorem test_suite_passes (w : world) :
  Conftest.sample_data w =
    (Ok (JObj [("user", JObj [("username", JStr "testuser");
                              ("email", JStr "test@example.com")])]), w)
  /\ TestExample.test_example_pass w = (Ok tt, w)
  /\ TestExample.test_addition w = (Ok tt, w)
  /\ with_fixture Conftest.sample_data TestExample.test_with_fixture w = (Ok tt, w)
  /\ Forall (fun t => passes (snd t) w = true) suite.
Proof.
  repeat split. repeat constructor.
Qed.

(** ** The definitions on concrete inputs *)

Example int_of_str_samples :
  int_of_str "8000" = Some 8000
  /\ int_of_str " 9_090 " = Some 9090
  /\ int_of_str "-0012" = Some (-12)
  /\ int_of_str "abc" = None
  /\ int_of_str "" = None
  /\ int_of_str "+ 1" = None
  /\ int_of_str "1__0" = None
  /\ int_of_str "80_" = None
  /\ int_of_str "8000.0" = None.
Proof. repeat split. Qed.

Example lower_samples :
  lower "TrUe" = "true" /\ lower "False" = "false" /\ lower " TRUE" = " true"
  /\ lower "yes-1_X" = "yes-1_x".
Proof. repeat split. Qed.

Example debug_samples :
  fst (FlaskBlock.debug (fresh (<["DEBUG" := "TRUE"]> ∅) (fun _ _ => true) [])) = Ok true
  /\ fst (FlaskBlock.debug (fresh (<["DEBUG" := "true"]> ∅) (fun _ _ => true) [])) = Ok true
  /\ fst (FlaskBlock.debug (fresh (<["DEBUG" := "1"]> ∅) (fun _ _ => true) [])) = Ok false
  /\ fst (FlaskBlock.debug (fresh (<["DEBUG" := "true "]> ∅) (fun _ _ => true) [])) = Ok false
  /\ fst (FlaskBlock.debug (fresh ∅ (fun _ _ => true) [])) = Ok false.
Proof. repeat split. Qed.

(** The scenario of section 8: [ENVIRONMENT=production], [PORT=5000], one
    request to [/health], one to a path without a rule. *)
Example production_scenario :
  python (FlaskBlock.script "__main__")
    (fresh (<["PORT" := "5000"]> (<["ENVIRONMENT" := "production"]> ∅))
       (fun _ p => p =? 5000)
       [Request "/health" [("verbose", "1")] [("Accept", "*/*")]; Request "/metrics" [] []])
  = (0,
     set_served
       (fun _ =>
          [ (Request "/health" [("verbose", "1")] [("Accept", "*/*")],
             Answered (Response 200
               (JObj [("status", JStr "healthy"); ("version", JStr "1.0.0")])));
            (Request "/metrics" [] [], NoRoute) ])
       (set_listening (Some ("0.0.0.0", 5000, false))
          (set_bind_log (fun _ => [("0.0.0.0", 5000)])
             (set_routes (fun _ => [("/health", "health"); ("/", "index")])
                (fresh (<["PORT" := "5000"]> (<["ENVIRONMENT" := "production"]> ∅))
                   (fun _ p => p =? 5000)
                   [Request "/health" [("verbose", "1")] [("Accept", "*/*")];
                    Request "/metrics" [] []]))))).
Proof. reflexivity. Qed.

(** What the codecs of the table make of an e with an acute accent. *)
Example codec_samples :
  encode UTF8 Strict e_acute = Ok (String "195" (String "169" ""))
  /\ encode Latin1 Strict e_acute = Ok e_acute
  /\ encode ASCII Strict e_acute = Raise UnicodeEncodeError
  /\ encode ASCII Replace e_acute = Ok "?"
  /\ encode ASCII Ignore e_acute = Ok ""
  /\ encode ASCII BackslashReplace e_acute = Ok "\xe9"
  /\ encode ASCII XmlCharRefReplace e_acute = Ok "&#233;"
  /\ encode ASCII NoSuchHandler e_acute = Raise LookupError
  /\ encode ASCII NoSuchHandler "plain" = Ok "plain"
  /\ stdout_codec (<["PYTHONIOENCODING" := "ASCII:replace"]> ∅) = (ASCII, Replace)
  /\ stdout_codec (<["PYTHONIOENCODING" := "ascii:Replace"]> ∅) = (ASCII, NoSuchHandler)
  /\ stdout_codec (<["PYTHONIOENCODING" := ":ignore"]> ∅) = (UTF8, Ignore)
  /\ stdout_codec (<["PYTHONIOENCODING" := "latin-1"]> ∅) = (Latin1, Strict)
  /\ stdout_codec ∅ = (UTF8, Strict).
Proof. repeat split. Qed.

Example occupied_port :
  fst (python (FastAPIBlock.script "__main__") (fresh ∅ (fun _ p => negb (p =? 8000)) []))
  = 1
  /\ fst (FastAPIBlock.script "__main__" (fresh ∅ (fun _ p => negb (p =? 8000)) []))
     = Raise BindError.
Proof. repeat split. Qed.

(** The assertions of [test_with_fixture] do test something: other
    dictionaries fail them. *)
Example test_with_fixture_can_fail (w : world) :
  TestExample.test_with_fixture (JObj []) w = (Raise AssertionError, w)
  /\ TestExample.test_with_fixture (JObj [("user", JObj [])]) w
     = (Raise (KeyError "username"), w)
  /\ TestExample.test_with_fixture (JObj [("user", JObj [("username", JStr "root")])]) w
     = (Raise AssertionError, w).
Proof. repeat split. Qed.

(** Imported by another module, [app.py] prints nothing. *)
Example imported_module_is_silent :
  printed (app_py (fun env => env) "app") (fresh ∅ (fun _ _ => true) []) = [].
Proof. reflexivity. Qed.

(** * Further properties of the code *)

(** ** The port of the framework blocks *)

Lemma fastapi_port_reads (w : world) :
  FastAPIBlock.port w =
    (match configured_port w with Some p => Ok p | None => Raise ValueError end, w).
Proof. apply port_reads. Qed.

(** X1.  [PORT] set to the decimal numeral of an integer, of whatever
    sign and size within the interpreter's bound on digits, makes both
    blocks read that integer: the code checks no range. *)
Theorem port_reads_every_numeral (w : world) (n : Z) :
  Z.abs n < 10 ^ Z.of_nat max_str_digits ->
  environ w !! "PORT" = Some (pretty n) ->
  FlaskBlock.port w = (Ok n, w) /\ FastAPIBlock.port w = (Ok n, w).
Proof.
  intros Hn Hport. rewrite fastapi_port_reads, port_reads.
  unfold configured_port. rewrite Hport, int_of_str_pretty by exact Hn.
  split; reflexivity.
Qed.

(** [port_reads_every_numeral] at [PORT=70000], which is no port. *)
Lemma port_reads_every_numeral_witness :
  FlaskBlock.port (fresh (<["PORT" := "70000"]> ∅) (fun _ _ => true) [])
    = (Ok 70000, fresh (<["PORT" := "70000"]> ∅) (fun _ _ => true) [])
  /\ FastAPIBlock.port (fresh (<["PORT" := "70000"]> ∅) (fun _ _ => true) [])
     = (Ok 70000, fresh (<["PORT" := "70000"]> ∅) (fun _ _ => true) []).
Proof.
  apply (port_reads_every_numeral
           (fresh (<["PORT" := "70000"]> ∅) (fun _ _ => true) []) 70000);
    vm_compute; reflexivity.
Defined.

(** X2.  [PORT] set to the empty string, or to white space only, does not
    give the default 8000: both blocks fail with [ValueError], as
    scripts too. *)
Theorem blank_port_is_an_error (w : world) (v : string) :
  environ w !! "PORT" = Some v ->
  all_chars is_space v = true ->
  FlaskBlock.port w = (Raise ValueError, w)
  /\ FastAPIBlock.port w = (Raise ValueError, w)
  /\ fst (FlaskBlock.script "__main__" w) = Raise ValueError
  /\ fst (FastAPIBlock.script "__main__" w) = Raise ValueError.
Proof.
  intros Hport Hblank.
  assert (Hnone : configured_port w = None).
  { unfold configured_port. rewrite Hport. apply int_of_str_blank, Hblank. }
  rewrite fastapi_port_reads, port_reads, flask_script_runs, fastapi_script_runs.
  cbv zeta. rewrite Hnone. repeat split.
Qed.

(** [blank_port_is_an_error] at [PORT=] (set, empty). *)
Lemma blank_port_is_an_error_witness :
  FlaskBlock.port (fresh (<["PORT" := ""]> ∅) (fun _ _ => true) [])
    = (Raise ValueError, fresh (<["PORT" := ""]> ∅) (fun _ _ => true) [])
  /\ FastAPIBlock.port (fresh (<["PORT" := ""]> ∅) (fun _ _ => true) [])
     = (Raise ValueError, fresh (<["PORT" := ""]> ∅) (fun _ _ => true) [])
  /\ fst (FlaskBlock.script "__main__" (fresh (<["PORT" := ""]> ∅) (fun _ _ => true) []))
     = Raise ValueError
  /\ fst (FastAPIBlock.script "__main__" (fresh (<["PORT" := ""]> ∅) (fun _ _ => true) []))
     = Raise ValueError.
Proof.
  apply (blank_port_is_an_error
           (fresh (<["PORT" := ""]> ∅) (fun _ _ => true) []) "");
    reflexivity.
Defined.

(** X3.  White space around the value of [PORT] is ignored: with [PORT]
    set to [pre ++ v ++ post], [pre] and [post] white space, both blocks
    read what they read from [v], or fail as they fail on [v]. *)
Theorem port_ignores_surrounding_space (w : world) (pre v post : string) :
  all_chars is_space pre = true ->
  all_chars is_space post = true ->
  environ w !! "PORT" = Some (pre +:+ v +:+ post) ->
  FlaskBlock.port w
    = (match int_of_str v with Some p => Ok p | None => Raise ValueError end, w)
  /\ FastAPIBlock.port w
     = (match int_of_str v with Some p => Ok p | None => Raise ValueError end, w).
Proof.
  intros Hpre Hpost Hport. rewrite fastapi_port_reads, port_reads.
  unfold configured_port. rewrite Hport, int_of_str_padding by assumption.
  split; reflexivity.
Qed.

(** [port_ignores_surrounding_space] at a value with a tab before and a
    line feed after. *)
Lemma port_ignores_surrounding_space_witness :
  FlaskBlock.port
    (fresh (<["PORT" := String "009" "" +:+ "5000" +:+ newline]> ∅) (fun _ _ => true) [])
  = (Ok 5000,
     fresh (<["PORT" := String "009" "" +:+ "5000" +:+ newline]> ∅) (fun _ _ => true) [])
  /\ FastAPIBlock.port
       (fresh (<["PORT" := String "009" "" +:+ "5000" +:+ newline]> ∅) (fun _ _ => true) [])
     = (Ok 5000,
        fresh (<["PORT" := String "009" "" +:+ "5000" +:+ newline]> ∅) (fun _ _ => true) []).
Proof.
  apply (port_ignores_surrounding_space
           (fresh (<["PORT" := String "009" "" +:+ "5000" +:+ newline]> ∅)
              (fun _ _ => true) [])
           (String "009" "") "5000" newline); reflexivity.
Defined.

(** X4.  A value of [PORT] that holds any character other than a digit,
    an underscore, a sign or white space makes both blocks fail with
    [ValueError]: no decimal point, no hexadecimal, no exponent, no
    name. *)
Theorem port_rejects_other_characters (w : world) (v : string) (c : ascii) :
  environ w !! "PORT" = Some v ->
  occurs c v = true ->
  literal_char c = false ->
  FlaskBlock.port w = (Raise ValueError, w)
  /\ FastAPIBlock.port w = (Raise ValueError, w).
Proof.
  intros Hport Hin Hc. rewrite fastapi_port_reads, port_reads.
  unfold configured_port. rewrite Hport, (int_of_str_reject c) by assumption.
  split; reflexivity.
Qed.

(** [port_rejects_other_characters] at [PORT=8000.0]. *)
Lemma port_rejects_other_characters_witness :
  FlaskBlock.port (fresh (<["PORT" := "8000.0"]> ∅) (fun _ _ => true) [])
    = (Raise ValueError, fresh (<["PORT" := "8000.0"]> ∅) (fun _ _ => true) [])
  /\ FastAPIBlock.port (fresh (<["PORT" := "8000.0"]> ∅) (fun _ _ => true) [])
     = (Raise ValueError, fresh (<["PORT" := "8000.0"]> ∅) (fun _ _ => true) []).
Proof.
  apply (port_rejects_other_characters
           (fresh (<["PORT" := "8000.0"]> ∅) (fun _ _ => true) []) "8000.0" ".");
    reflexivity.
Defined.

(** X5.  The placeholder and the blocks agree on the port: whatever text
    [main] prints after [Port: ], the blocks read [int] of that text,
    the two defaults, the string ['8000'] and the integer [8000],
    included. *)
Theorem blocks_read_the_port_main_prints (w : world) (v : string) :
  printed main w !! 3%nat = Some ("Port: " +:+ v +:+ newline) ->
  FlaskBlock.port w
    = (match int_of_str v with Some p => Ok p | None => Raise ValueError end, w)
  /\ FastAPIBlock.port w
     = (match int_of_str v with Some p => Ok p | None => Raise ValueError end, w).
Proof.
  intros Hline. apply port_line in Hline.
  apply String.app_inj, append_inj_r in Hline. subst v.
  rewrite fastapi_port_reads, port_reads. unfold configured_port, env_or.
  destruct (environ w !! "PORT"); split; reflexivity.
Qed.

(** [blocks_read_the_port_main_prints] with [PORT] unset. *)
Lemma blocks_read_the_port_main_prints_witness :
  FlaskBlock.port (fresh ∅ (fun _ _ => true) []) = (Ok 8000, fresh ∅ (fun _ _ => true) [])
  /\ FastAPIBlock.port (fresh ∅ (fun _ _ => true) [])
     = (Ok 8000, fresh ∅ (fun _ _ => true) []).
Proof.
  apply (blocks_read_the_port_main_prints (fresh ∅ (fun _ _ => true) []) "8000").
  reflexivity.
Defined.

(** ** Importing instead of running *)

(** X6.  Imported under any name but [__main__], [app.py] still loads
    the environment file but does not call [main]: it prints nothing,
    raises nothing and leaves everything but [os.environ] as it was. *)
Theorem importing_app_py_prints_nothing
    (load_dotenv : gmap string string -> gmap string string)
    (name : string) (w : world) :
  name <> "__main__" ->
  app_py load_dotenv name w = (Ok tt, set_environ load_dotenv w)
  /\ printed (app_py load_dotenv name) w = [].
Proof.
  intros Hname. unfold printed. rewrite app_py_imported by exact Hname.
  split; [reflexivity|]. apply drop_all.
Qed.

(** [importing_app_py_prints_nothing] for [import app], with an
    environment file that sets [PORT]. *)
Lemma importing_app_py_prints_nothing_witness :
  app_py (fun env => <["PORT" := "5000"]> env) "app" (fresh ∅ (fun _ _ => true) [])
    = (Ok tt, fresh (<["PORT" := "5000"]> ∅) (fun _ _ => true) [])
  /\ printed (app_py (fun env => <["PORT" := "5000"]> env) "app")
       (fresh ∅ (fun _ _ => true) []) = [].
Proof.
  exact (importing_app_py_prints_nothing (fun env => <["PORT" := "5000"]> env) "app"
           (fresh ∅ (fun _ _ => true) []) ltac:(discriminate)).
Defined.

(** X7.  Imported under any name but [__main__], each framework block
    registers its two routes and does nothing else: it reads no variable,
    so it cannot fail on [PORT], attempts no bind and answers nothing. *)
Theorem importing_a_block_only_registers_routes (name : string) (w : world) :
  name <> "__main__" ->
  FlaskBlock.script name w
    = (Ok tt, set_routes (fun rs => rs ++ [("/health", "health"); ("/", "index")]) w)
  /\ FastAPIBlock.script name w
     = (Ok tt, set_routes (fun rs => rs ++ [("/health", "health"); ("/", "root")]) w).
Proof.
  intros Hname. unfold FlaskBlock.script, FastAPIBlock.script.
  destruct (String.eqb_spec name "__main__") as [E|_]; [contradiction|].
  split.
  - unfold bind. rewrite flask_app_builds. reflexivity.
  - unfold bind. rewrite fastapi_app_builds. reflexivity.
Qed.

(** [importing_a_block_only_registers_routes] with a [PORT] that [int]
    rejects and no port to bind. *)
Lemma importing_a_block_only_registers_routes_witness :
  FlaskBlock.script "app"
    (fresh (<["PORT" := "abc"]> ∅) (fun _ _ => false) [Request "/" [] []])
  = (Ok tt,
     set_routes (fun rs => rs ++ [("/health", "health"); ("/", "index")])
       (fresh (<["PORT" := "abc"]> ∅) (fun _ _ => false) [Request "/" [] []]))
  /\ FastAPIBlock.script "app"
       (fresh (<["PORT" := "abc"]> ∅) (fun _ _ => false) [Request "/" [] []])
     = (Ok tt,
        set_routes (fun rs => rs ++ [("/health", "health"); ("/", "root")])
          (fresh (<["PORT" := "abc"]> ∅) (fun _ _ => false) [Request "/" [] []])).
Proof.
  apply (importing_a_block_only_registers_routes "app"
           (fresh (<["PORT" := "abc"]> ∅) (fun _ _ => false) [Request "/" [] []])).
  discriminate.
Defined.

(** ** What [test_with_fixture] tests *)

Lemma py_in_dict (items : list (string * json)) (k : string) (w : world) :
  py_in k (JObj items) w
  = (Ok (match dict_get items k with Some _ => true | None => false end), w).
Proof.
  unfold py_in, ret. destruct (dict_get items k) as [v|].
  - rewrite bool_decide_eq_true_2 by (exists v; reflexivity). reflexivity.
  - rewrite bool_decide_eq_false_2 by (intros [v Hv]; discriminate Hv). reflexivity.
Qed.

(** The test on a dictionary, by what the dictionary holds. *)
Lemma test_with_fixture_on_dict (items : list (string * json)) (w : world) :
  TestExample.test_with_fixture (JObj items) w =
    (match dict_get items "user" with
     | None => Raise AssertionError
     | Some (JStr _) => Raise TypeError
     | Some (JObj fields) =>
         match dict_get fields "username" with
         | None => Raise (KeyError "username")
         | Some name =>
             if TestExample.eq_str name "testuser" then Ok tt else Raise AssertionError
         end
     end, w).
Proof.
  unfold TestExample.test_with_fixture.
  unfold bind at 1. rewrite py_in_dict.
  unfold subscript.
  destruct (dict_get items "user") as [[s|fields]|]; try reflexivity.
  unfold bind, py_assert, ret, raise.
  destruct (dict_get fields "username") as [name|]; [|reflexivity].
  destruct (TestExample.eq_str name "testuser"); reflexivity.
Qed.

Lemma test_with_fixture_on_str (s : string) (w : world) :
  TestExample.test_with_fixture (JStr s) w = (Raise AssertionError, w)
  \/ TestExample.test_with_fixture (JStr s) w = (Raise TypeError, w).
Proof.
  unfold TestExample.test_with_fixture, py_in, subscript, bind, py_assert, ret, raise.
  destruct (bool_decide (is_Some (String.index 0 "user" s))); [right|left]; reflexivity.
Qed.

(** X11.  [test_with_fixture] passes on a value exactly when the value is
    a dictionary whose ["user"] entry is a dictionary whose ["username"]
    entry is the string [testuser]; no other key, [email] included, and
    no other entry matters. *)
Theorem test_with_fixture_passes_iff (d : json) (w : world) :
  TestExample.test_with_fixture d w = (Ok tt, w) <->
  exists (items fields : list (string * json)),
    d = JObj items
    /\ dict_get items "user" = Some (JObj fields)
    /\ dict_get fields "username" = Some (JStr "testuser").
Proof.
  split.
  - destruct d as [s|items].
    + destruct (test_with_fixture_on_str s w) as [H|H]; rewrite H; discriminate.
    + rewrite test_with_fixture_on_dict.
      destruct (dict_get items "user") as [[s|fields]|] eqn:Huser; try discriminate.
      destruct (dict_get fields "username") as [[t|o]|] eqn:Hname; try discriminate.
      simpl. destruct (String.eqb_spec t "testuser") as [->|_]; [|discriminate].
      intros _. exists items, fields. repeat split; assumption.
  - intros (items & fields & -> & Huser & Hname).
    rewrite test_with_fixture_on_dict, Huser, Hname. reflexivity.
Qed.

(** X12.  On any value [test_with_fixture] leaves the world as it was and
    ends in one of four ways: it passes, an assertion fails, the value or
    its ["user"] entry is no dictionary ([TypeError]), or the ["user"]
    dictionary has no ["username"] ([KeyError]).  A dictionary without
    ["user"] fails the first assertion: the subscript after it never
    raises [KeyError] for ["user"]. *)
Theorem test_with_fixture_outcomes (d : json) (w : world) :
  (exists r : result unit,
      TestExample.test_with_fixture d w = (r, w)
      /\ (r = Ok tt \/ r = Raise AssertionError \/ r = Raise TypeError
          \/ r = Raise (KeyError "username")))
  /\ fst (TestExample.test_with_fixture d w) <> Raise (KeyError "user")
  /\ forall items : list (string * json),
       d = JObj items -> dict_get items "user" = None ->
       TestExample.test_with_fixture d w = (Raise AssertionError, w).
Proof.
  assert (Hout : exists r : result unit,
             TestExample.test_with_fixture d w = (r, w)
             /\ (r = Ok tt \/ r = Raise AssertionError \/ r = Raise TypeError
                 \/ r = Raise (KeyError "username"))).
  { destruct d as [s|items].
    - destruct (test_with_fixture_on_str s w) as [H|H]; rewrite H; eauto 6.
    - rewrite test_with_fixture_on_dict.
      destruct (dict_get items "user") as [[s|fields]|]; eauto 6.
      destruct (dict_get fields "username") as [name|]; eauto 7.
      destruct (TestExample.eq_str name "testuser"); eauto 6. }
  split; [exact Hout|]. split.
  - destruct Hout as (r & -> & [->|[->|[->| ->]]]); discriminate.
  - intros items -> Huser. rewrite test_with_fixture_on_dict, Huser. reflexivity.
Qed.

(** ** The debug flag and white space *)

Lemma length_append (s t : string) :
  String.length (s +:+ t) = (String.length s + String.length t)%nat.
Proof.
  induction s as [|c s IH]; [reflexivity|].
  rewrite append_cons. simpl. rewrite IH. reflexivity.
Qed.

Lemma length_lower (s : string) : String.length (lower s) = String.length s.
Proof. induction s as [|c s IH]; simpl; [|rewrite IH]; reflexivity. Qed.

(** X13.  Unlike [PORT], [DEBUG] is compared as it is: any character
    before or after a spelling of [true], white space included, leaves
    the debug flag off. *)
Theorem padded_true_is_not_debug (w : world) (pre v post : string) :
  lower v = "true" ->
  pre <> "" \/ post <> "" ->
  environ w !! "DEBUG" = Some (pre +:+ v +:+ post) ->
  FlaskBlock.debug w = (Ok false, w).
Proof.
  intros Hv Hpad Hdebug. rewrite debug_reads. unfold env_or. rewrite Hdebug.
  destruct (String.eqb_spec (lower (pre +:+ v +:+ post)) "true") as [E|_]; [|reflexivity].
  exfalso.
  apply (f_equal String.length) in E, Hv.
  rewrite length_lower, !length_append in E. rewrite length_lower in Hv.
  simpl in E, Hv.
  destruct Hpad as [H|H]; [destruct pre|destruct post]; try contradiction;
    simpl in E; lia.
Qed.

(** [padded_true_is_not_debug] at [DEBUG] set to [true] and a space. *)
Lemma padded_true_is_not_debug_witness :
  FlaskBlock.debug (fresh (<["DEBUG" := "true "]> ∅) (fun _ _ => true) [])
  = (Ok false, fresh (<["DEBUG" := "true "]> ∅) (fun _ _ => true) []).
Proof.
  apply (padded_true_is_not_debug
           (fresh (<["DEBUG" := "true "]> ∅) (fun _ _ => true) []) "" "true" " ").
  - reflexivity.
  - right. discriminate.
  - reflexivity.
Defined.
